(** * dudu-app: the record keeper of App.tsx, embedded in Rocq

    The development follows the latest [App.tsx] of the repository (the one
    with the three tabs: food records, shopping wishlist, weight trend).

    - [JS]        the platform functions the component calls: [Date] parsing of
                  calendar dates, [parseFloat], number printing, truthiness;
    - [Firestore] the remote document store as far as the component uses it:
                  the three write calls and what a partial update does to a
                  stored document;
    - [Age]       [calculateAgeLabel];
    - [View]      [displayedRecords], pure and over a heap of arrays;
    - [App]       the component state, its handlers split at their [await],
                  and the event loop that drives them. *)

From Stdlib Require Import ZArith String Ascii DecimalString Decimal Bool Sorted.
From stdpp Require Import gmap strings list.

Open Scope string_scope.
Open Scope Z_scope.

(* ===================================================================== *)
(** ** Platform functions *)
(* ===================================================================== *)

Module JS.

(** [!s] on a string is true exactly on the empty string. *)
Definition falsy (s : string) : bool :=
  match s with
  | EmptyString => true
  | String _ _ => false
  end.

(** Template-literal printing of an integral number. *)
Definition Number_toString (z : Z) : string :=
  NilZero.string_of_int (Z.to_int z).

Definition digit (c : ascii) : option Z :=
  let n := Z.of_N (N_of_ascii c) in
  if (48 <=? n) && (n <=? 57) then Some (n - 48) else None.

(** Value of a run of decimal digits, most significant first; [None] when a
    character is not a digit. *)
Fixpoint digits_value (acc : Z) (cs : list ascii) : option Z :=
  match cs with
  | [] => Some acc
  | c :: cs' =>
      match digit c with
      | Some d => digits_value (10 * acc + d) cs'
      | None => None
      end
  end.

Definition MS_PER_DAY : Z := 1000 * 60 * 60 * 24.

Definition is_leap (y : Z) : bool :=
  ((y mod 4 =? 0) && negb (y mod 100 =? 0)) || (y mod 400 =? 0).

Definition days_in_month (y m : Z) : Z :=
  if m =? 2 then (if is_leap y then 29 else 28)
  else if (m =? 4) || (m =? 6) || (m =? 9) || (m =? 11) then 30
  else 31.

(** Days from 1970-01-01 to the civil date [y]-[m]-[d] (proleptic
    Gregorian calendar), the day number behind [Date.prototype.getTime]. *)
Definition days_from_civil (y m d : Z) : Z :=
  let y' := if m <=? 2 then y - 1 else y in
  let era := y' / 400 in
  let yoe := y' - era * 400 in
  let mp := if m <=? 2 then m + 9 else m - 3 in
  let doy := (153 * mp + 2) / 5 + d - 1 in
  let doe := yoe * 365 + yoe / 4 - yoe / 100 + doy in
  era * 146097 + doe - 719468.

(** [new Date(s).getTime()] for the date-only form [YYYY-MM-DD], which is
    what [<input type="date">] and [DUDU_BIRTHDAY] hold: midnight UTC of that
    day in milliseconds.  [None] stands for [NaN] (an invalid date).  The
    model is partial: an engine reads more texts than these (date-times, and in
    some engines a day past the end of its month, rolled over), and for all of
    those this answers [None]; where it answers [Some] it is exact, and what
    is proved of a date below is proved under that answer. *)
Definition Date_getTime (s : string) : option Z :=
  match list_ascii_of_string s with
  | [y1; y2; y3; y4; "-"%char; m1; m2; "-"%char; d1; d2] =>
      match digits_value 0 [y1; y2; y3; y4],
            digits_value 0 [m1; m2],
            digits_value 0 [d1; d2] with
      | Some y, Some m, Some d =>
          if (1 <=? m) && (m <=? 12) && (1 <=? d) && (d <=? days_in_month y m)
          then Some (days_from_civil y m d * MS_PER_DAY)
          else None
      | _, _, _ => None
      end
  | _ => None
  end.

(** [Math.ceil (a / b)] for integral [a] and positive integral [b].  The
    quotient of two such numbers below 2^53 whose ratio is integral is exact
    in double precision, which is the case for differences of midnights. *)
Definition Math_ceil_div (a b : Z) : Z := - ((- a) / b).

(** Numbers as the component meets them: a decimal [m * 10^e] (of which the
    engine keeps the nearest double), an infinity, or [NaN]. *)
Inductive Num : Type :=
  | NaN
  | Infinite (negative : bool)
  | Dec (m e : Z).

Definition Num_of_Z (z : Z) : Num := Dec z 0.

Definition Num_of_time (t : option Z) : Num :=
  match t with
  | Some z => Dec z 0
  | None => NaN
  end.

Definition is_whitespace (c : ascii) : bool :=
  let n := N_of_ascii c in
  ((9 <=? n) && (n <=? 13))%N || (n =? 32)%N.

Fixpoint skip_whitespace (cs : list ascii) : list ascii :=
  match cs with
  | c :: cs' => if is_whitespace c then skip_whitespace cs' else cs
  | [] => []
  end.

(** The longest run of digits at the front, and what follows it. *)
Fixpoint span_digits (cs : list ascii) : list Z * list ascii :=
  match cs with
  | c :: cs' =>
      match digit c with
      | Some d => let '(ds, rest) := span_digits cs' in (d :: ds, rest)
      | None => ([], cs)
      end
  | [] => ([], [])
  end.

Definition digits_to_Z (ds : list Z) : Z :=
  fold_left (fun acc d => 10 * acc + d) ds 0.

Definition take_sign (cs : list ascii) : bool * list ascii :=
  match cs with
  | "-"%char :: cs' => (true, cs')
  | "+"%char :: cs' => (false, cs')
  | _ => (false, cs)
  end.

(** An exponent part [e], [e+] or [e-] followed by at least one digit;
    without the digits the letter is not part of the number. *)
Definition take_exponent (cs : list ascii) : Z :=
  match cs with
  | c :: cs' =>
      if (Ascii.eqb c "e" || Ascii.eqb c "E")%bool then
        let '(neg, cs'') := take_sign cs' in
        match span_digits cs'' with
        | ([], _) => 0
        | (ds, _) => if neg then - digits_to_Z ds else digits_to_Z ds
        end
      else 0
  | [] => 0
  end.

(** [parseFloat]: leading white space is dropped and the longest prefix that
    is a decimal literal is read; [NaN] when there is none.  White space is
    the ASCII one. *)
Definition parseFloat (s : string) : Num :=
  let '(neg, cs) := take_sign (skip_whitespace (list_ascii_of_string s)) in
  if String.prefix "Infinity" (string_of_list_ascii cs) then Infinite neg
  else
    let '(int_part, rest) := span_digits cs in
    let '(frac_part, rest') :=
      match rest with
      | "."%char :: after => span_digits after
      | _ => ([], rest)
      end in
    match (int_part ++ frac_part)%list with
    | [] => NaN
    | ds =>
        let m := digits_to_Z ds in
        Dec (if neg then - m else m)
            (take_exponent rest' - Z.of_nat (length frac_part))
    end.

End JS.

(* ===================================================================== *)
(** ** The age formatter *)
(* ===================================================================== *)

Module Age.
Import JS.

Definition DUDU_BIRTHDAY : string := "2025-04-01".

(** The elapsed whole days [diffDays] that [calculateAgeLabel] computes;
    [None] when either date is invalid. *)
Definition diffDays (dateString : string) : option Z :=
  match Date_getTime DUDU_BIRTHDAY, Date_getTime dateString with
  | Some birth, Some target =>
      let diffTime := Z.abs (target - birth) in
      Some (Math_ceil_div diffTime MS_PER_DAY)
  | _, _ => None
  end.

Definition calculateAgeLabel (dateString : string) : string :=
  match diffDays dateString with
  | Some diffDays =>
      if diffDays <? 30 then Number_toString diffDays ++ "天"
      else
        let months := diffDays / 30 in
        let days := Z.rem diffDays 30 in
        if days <? 5 then Number_toString months ++ "個月"
        else Number_toString months ++ "個月" ++ Number_toString days ++ "天"
  | None =>
      (* every comparison with NaN is false, so both tests fall through *)
      "NaN個月NaN天"
  end.

End Age.


(* ===================================================================== *)
(** ** The data model *)
(* ===================================================================== *)

Inductive CategoryType : Type := canned | pouch | dry | litter | raw.

Inductive TabType : Type := food | weight | shopping.

(** [CategoryType | 'all'], the value of the filter select. *)
Inductive FilterType : Type :=
  | all
  | only (c : CategoryType).

Inductive SortKey : Type := by_date | by_brand | by_rating.

#[global] Instance CategoryType_eq_dec : EqDecision CategoryType.
Proof. solve_decision. Defined.

#[global] Instance TabType_eq_dec : EqDecision TabType.
Proof. solve_decision. Defined.

(** The string a category is in the running program. *)
Definition CategoryType_value (c : CategoryType) : string :=
  match c with
  | canned => "canned"
  | pouch => "pouch"
  | dry => "dry"
  | litter => "litter"
  | raw => "raw"
  end.

Module FoodRecord.
Record t : Type := mk {
  id : string;
  category : CategoryType;
  brand : string;
  flavor : string;
  rating : Z;
  notes : string;
  date : string;
  timestamp : Z
}.
End FoodRecord.

Module WeightRecord.
Record t : Type := mk {
  id : string;
  weight : JS.Num;
  date : string;
  timestamp : JS.Num
}.
End WeightRecord.

Module ShoppingItem.
Record t : Type := mk {
  id : string;
  category : CategoryType;
  name : string;
  note : string;
  isBought : bool;
  timestamp : Z
}.
End ShoppingItem.

(* ===================================================================== *)
(** ** The remote document store, as the component uses it *)
(* ===================================================================== *)

Module Firestore.

Inductive Value : Type :=
  | VString (s : string)
  | VNumber (n : JS.Num)
  | VBoolean (b : bool).

(** An object literal handed to [addDoc] or [updateDoc]: its fields in the
    order they are written. *)
Definition Fields : Type := list (string * Value).

Inductive Call : Type :=
  | addDoc (collection : string) (data : Fields)
  | updateDoc (collection id : string) (data : Fields)
  | deleteDoc (collection id : string).

(** How an awaited call ends. *)
Inductive Outcome : Type := Resolved | Rejected.

Definition is_addDoc (c : Call) : bool :=
  match c with
  | addDoc _ _ => true
  | _ => false
  end.

(** A stored document and the store: documents by collection and identity. *)
Abbreviation Document := (gmap string Value).
Abbreviation Store := (gmap (string * string) (gmap string Value)).

(** [updateDoc] is a partial update: the fields given replace the stored
    ones of the same name, every other stored field stays. *)
Definition merge_fields (data : Fields) (d : Document) : Document :=
  list_to_map data ∪ d.

(** What a call does to the store when it reaches it.  [addDoc] stores the
    document under the identity [newId] the store assigns; [updateDoc] of a
    document that does not exist is rejected ([None]); [deleteDoc] of one
    that does not exist succeeds. *)
Definition apply (newId : string) (c : Call) (s : Store) : option Store :=
  match c with
  | addDoc col data => Some (<[(col, newId) := list_to_map data]> s)
  | updateDoc col id data =>
      match s !! (col, id) with
      | Some d => Some (<[(col, id) := merge_fields data d]> s)
      | None => None
      end
  | deleteDoc col id => Some (delete (col, id) s)
  end.

End Firestore.

(* ===================================================================== *)
(** ** The derived views *)
(* ===================================================================== *)

Module View.

(** Arrays of food records by reference. *)
Abbreviation Heap := (gmap nat (list FoodRecord.t)).

Section Projection.

(** [a.localeCompare(b, 'zh-TW')], the collation of the platform. *)
Variable localeCompare : string -> string -> Z.

(** [Array.prototype.sort] with a comparator.  The language requires the
    sort to be stable; an element is put into the sorted rest in front of the
    first one it does not compare greater than. *)
Fixpoint sort_insert {A} (cmp : A -> A -> Z) (x : A) (l : list A) : list A :=
  match l with
  | [] => [x]
  | y :: l' => if 0 <? cmp x y then y :: sort_insert cmp x l' else x :: y :: l'
  end.

Fixpoint Array_sort {A} (cmp : A -> A -> Z) (l : list A) : list A :=
  match l with
  | [] => []
  | x :: l' => sort_insert cmp x (Array_sort cmp l')
  end.

(** The callback of [.filter]. *)
Definition keeps (filterCategory : FilterType) (rec : FoodRecord.t) : bool :=
  match filterCategory with
  | all => true
  | only c => bool_decide (FoodRecord.category rec = c)
  end.

(** The callback of [.sort]. *)
Definition compare (sortBy : SortKey) (a b : FoodRecord.t) : Z :=
  match sortBy with
  | by_date => FoodRecord.timestamp b - FoodRecord.timestamp a
  | by_rating => FoodRecord.rating b - FoodRecord.rating a
  | by_brand => localeCompare (FoodRecord.brand a) (FoodRecord.brand b)
  end.

Definition displayedRecords (foodRecords : list FoodRecord.t)
    (filterCategory : FilterType) (sortBy : SortKey) : list FoodRecord.t :=
  Array_sort (compare sortBy) (List.filter (keeps filterCategory) foodRecords).

(** *** The same over a heap of arrays

    Arrays are objects: [.filter] makes a new array, [.sort] reorders the
    array it is called on and returns that same array. *)

Definition heap_filter (p : FoodRecord.t -> bool) (a : nat) (h : Heap)
    : option (nat * Heap) :=
  match h !! a with
  | Some l => let b := fresh (dom h) in Some (b, <[b := List.filter p l]> h)
  | None => None
  end.

Definition heap_sort (cmp : FoodRecord.t -> FoodRecord.t -> Z) (a : nat) (h : Heap)
    : option (nat * Heap) :=
  match h !! a with
  | Some l => Some (a, <[a := Array_sort cmp l]> h)
  | None => None
  end.

Definition displayedRecords_heap (foodRecords : nat)
    (filterCategory : FilterType) (sortBy : SortKey) (h : Heap)
    : option (nat * Heap) :=
  match heap_filter (keeps filterCategory) foodRecords h with
  | Some (filtered, h') => heap_sort (compare sortBy) filtered h'
  | None => None
  end.

(** The sort key of a record under each order, for speaking of ties. *)
Inductive Key : Type :=
  | KNumber (z : Z)
  | KString (s : string).

Definition sort_key (sortBy : SortKey) (rec : FoodRecord.t) : Key :=
  match sortBy with
  | by_date => KNumber (FoodRecord.timestamp rec)
  | by_rating => KNumber (FoodRecord.rating rec)
  | by_brand => KString (FoodRecord.brand rec)
  end.

End Projection.

#[global] Instance Key_eq_dec : EqDecision Key.
Proof. solve_decision. Defined.

(** [chartData]: one point per weight record, in the order held. *)
Record ChartPoint : Type := mkPoint {
  point : WeightRecord.t;
  ageLabel : string
}.

Definition chartData (weightRecords : list WeightRecord.t) : list ChartPoint :=
  map (fun rec => mkPoint rec (Age.calculateAgeLabel (WeightRecord.date rec)))
      weightRecords.

End View.

(* ===================================================================== *)
(** ** The component *)
(* ===================================================================== *)

Module App.
Import JS.

(** The state variables of [App], one field per [useState]. *)
Record State : Type := mkState {
  currentTab : TabType;
  foodRecords : list FoodRecord.t;
  category : CategoryType;
  brand : string;
  flavor : string;
  rating : Z;
  notes : string;
  filterCategory : FilterType;
  sortBy : SortKey;
  weightRecords : list WeightRecord.t;
  weightInput : string;
  measureDate : string;
  shoppingList : list ShoppingItem.t;
  shopName : string;
  shopNote : string;
  isSubmitting : bool;
  editingId : option string
}.

(** The state setters. *)
Definition setCurrentTab (v : TabType) (s : State) : State :=
  {| currentTab := v;
     foodRecords := foodRecords s;
     category := category s;
     brand := brand s;
     flavor := flavor s;
     rating := rating s;
     notes := notes s;
     filterCategory := filterCategory s;
     sortBy := sortBy s;
     weightRecords := weightRecords s;
     weightInput := weightInput s;
     measureDate := measureDate s;
     shoppingList := shoppingList s;
     shopName := shopName s;
     shopNote := shopNote s;
     isSubmitting := isSubmitting s;
     editingId := editingId s |}.

Definition setFoodRecords (v : list FoodRecord.t) (s : State) : State :=
  {| currentTab := currentTab s;
     foodRecords := v;
     category := category s;
     brand := brand s;
     flavor := flavor s;
     rating := rating s;
     notes := notes s;
     filterCategory := filterCategory s;
     sortBy := sortBy s;
     weightRecords := weightRecords s;
     weightInput := weightInput s;
     measureDate := measureDate s;
     shoppingList := shoppingList s;
     shopName := shopName s;
     shopNote := shopNote s;
     isSubmitting := isSubmitting s;
     editingId := editingId s |}.

Definition setCategory (v : CategoryType) (s : State) : State :=
  {| currentTab := currentTab s;
     foodRecords := foodRecords s;
     category := v;
     brand := brand s;
     flavor := flavor s;
     rating := rating s;
     notes := notes s;
     filterCategory := filterCategory s;
     sortBy := sortBy s;
     weightRecords := weightRecords s;
     weightInput := weightInput s;
     measureDate := measureDate s;
     shoppingList := shoppingList s;
     shopName := shopName s;
     shopNote := shopNote s;
     isSubmitting := isSubmitting s;
     editingId := editingId s |}.

Definition setBrand (v : string) (s : State) : State :=
  {| currentTab := currentTab s;
     foodRecords := foodRecords s;
     category := category s;
     brand := v;
     flavor := flavor s;
     rating := rating s;
     notes := notes s;
     filterCategory := filterCategory s;
     sortBy := sortBy s;
     weightRecords := weightRecords s;
     weightInput := weightInput s;
     measureDate := measureDate s;
     shoppingList := shoppingList s;
     shopName := shopName s;
     shopNote := shopNote s;
     isSubmitting := isSubmitting s;
     editingId := editingId s |}.

Definition setFlavor (v : string) (s : State) : State :=
  {| currentTab := currentTab s;
     foodRecords := foodRecords s;
     category := category s;
     brand := brand s;
     flavor := v;
     rating := rating s;
     notes := notes s;
     filterCategory := filterCategory s;
     sortBy := sortBy s;
     weightRecords := weightRecords s;
     weightInput := weightInput s;
     measureDate := measureDate s;
     shoppingList := shoppingList s;
     shopName := shopName s;
     shopNote := shopNote s;
     isSubmitting := isSubmitting s;
     editingId := editingId s |}.

Definition setRating (v : Z) (s : State) : State :=
  {| currentTab := currentTab s;
     foodRecords := foodRecords s;
     category := category s;
     brand := brand s;
     flavor := flavor s;
     rating := v;
     notes := notes s;
     filterCategory := filterCategory s;
     sortBy := sortBy s;
     weightRecords := weightRecords s;
     weightInput := weightInput s;
     measureDate := measureDate s;
     shoppingList := shoppingList s;
     shopName := shopName s;
     shopNote := shopNote s;
     isSubmitting := isSubmitting s;
     editingId := editingId s |}.

Definition setNotes (v : string) (s : State) : State :=
  {| currentTab := currentTab s;
     foodRecords := foodRecords s;
     category := category s;
     brand := brand s;
     flavor := flavor s;
     rating := rating s;
     notes := v;
     filterCategory := filterCategory s;
     sortBy := sortBy s;
     weightRecords := weightRecords s;
     weightInput := weightInput s;
     measureDate := measureDate s;
     shoppingList := shoppingList s;
     shopName := shopName s;
     shopNote := shopNote s;
     isSubmitting := isSubmitting s;
     editingId := editingId s |}.

Definition setFilterCategory (v : FilterType) (s : State) : State :=
  {| currentTab := currentTab s;
     foodRecords := foodRecords s;
     category := category s;
     brand := brand s;
     flavor := flavor s;
     rating := rating s;
     notes := notes s;
     filterCategory := v;
     sortBy := sortBy s;
     weightRecords := weightRecords s;
     weightInput := weightInput s;
     measureDate := measureDate s;
     shoppingList := shoppingList s;
     shopName := shopName s;
     shopNote := shopNote s;
     isSubmitting := isSubmitting s;
     editingId := editingId s |}.

Definition setSortBy (v : SortKey) (s : State) : State :=
  {| currentTab := currentTab s;
     foodRecords := foodRecords s;
     category := category s;
     brand := brand s;
     flavor := flavor s;
     rating := rating s;
     notes := notes s;
     filterCategory := filterCategory s;
     sortBy := v;
     weightRecords := weightRecords s;
     weightInput := weightInput s;
     measureDate := measureDate s;
     shoppingList := shoppingList s;
     shopName := shopName s;
     shopNote := shopNote s;
     isSubmitting := isSubmitting s;
     editingId := editingId s |}.

Definition setWeightRecords (v : list WeightRecord.t) (s : State) : State :=
  {| currentTab := currentTab s;
     foodRecords := foodRecords s;
     category := category s;
     brand := brand s;
     flavor := flavor s;
     rating := rating s;
     notes := notes s;
     filterCategory := filterCategory s;
     sortBy := sortBy s;
     weightRecords := v;
     weightInput := weightInput s;
     measureDate := measureDate s;
     shoppingList := shoppingList s;
     shopName := shopName s;
     shopNote := shopNote s;
     isSubmitting := isSubmitting s;
     editingId := editingId s |}.

Definition setWeightInput (v : string) (s : State) : State :=
  {| currentTab := currentTab s;
     foodRecords := foodRecords s;
     category := category s;
     brand := brand s;
     flavor := flavor s;
     rating := rating s;
     notes := notes s;
     filterCategory := filterCategory s;
     sortBy := sortBy s;
     weightRecords := weightRecords s;
     weightInput := v;
     measureDate := measureDate s;
     shoppingList := shoppingList s;
     shopName := shopName s;
     shopNote := shopNote s;
     isSubmitting := isSubmitting s;
     editingId := editingId s |}.

Definition setMeasureDate (v : string) (s : State) : State :=
  {| currentTab := currentTab s;
     foodRecords := foodRecords s;
     category := category s;
     brand := brand s;
     flavor := flavor s;
     rating := rating s;
     notes := notes s;
     filterCategory := filterCategory s;
     sortBy := sortBy s;
     weightRecords := weightRecords s;
     weightInput := weightInput s;
     measureDate := v;
     shoppingList := shoppingList s;
     shopName := shopName s;
     shopNote := shopNote s;
     isSubmitting := isSubmitting s;
     editingId := editingId s |}.

Definition setShoppingList (v : list ShoppingItem.t) (s : State) : State :=
  {| currentTab := currentTab s;
     foodRecords := foodRecords s;
     category := category s;
     brand := brand s;
     flavor := flavor s;
     rating := rating s;
     notes := notes s;
     filterCategory := filterCategory s;
     sortBy := sortBy s;
     weightRecords := weightRecords s;
     weightInput := weightInput s;
     measureDate := measureDate s;
     shoppingList := v;
     shopName := shopName s;
     shopNote := shopNote s;
     isSubmitting := isSubmitting s;
     editingId := editingId s |}.

Definition setShopName (v : string) (s : State) : State :=
  {| currentTab := currentTab s;
     foodRecords := foodRecords s;
     category := category s;
     brand := brand s;
     flavor := flavor s;
     rating := rating s;
     notes := notes s;
     filterCategory := filterCategory s;
     sortBy := sortBy s;
     weightRecords := weightRecords s;
     weightInput := weightInput s;
     measureDate := measureDate s;
     shoppingList := shoppingList s;
     shopName := v;
     shopNote := shopNote s;
     isSubmitting := isSubmitting s;
     editingId := editingId s |}.

Definition setShopNote (v : string) (s : State) : State :=
  {| currentTab := currentTab s;
     foodRecords := foodRecords s;
     category := category s;
     brand := brand s;
     flavor := flavor s;
     rating := rating s;
     notes := notes s;
     filterCategory := filterCategory s;
     sortBy := sortBy s;
     weightRecords := weightRecords s;
     weightInput := weightInput s;
     measureDate := measureDate s;
     shoppingList := shoppingList s;
     shopName := shopName s;
     shopNote := v;
     isSubmitting := isSubmitting s;
     editingId := editingId s |}.

Definition setIsSubmitting (v : bool) (s : State) : State :=
  {| currentTab := currentTab s;
     foodRecords := foodRecords s;
     category := category s;
     brand := brand s;
     flavor := flavor s;
     rating := rating s;
     notes := notes s;
     filterCategory := filterCategory s;
     sortBy := sortBy s;
     weightRecords := weightRecords s;
     weightInput := weightInput s;
     measureDate := measureDate s;
     shoppingList := shoppingList s;
     shopName := shopName s;
     shopNote := shopNote s;
     isSubmitting := v;
     editingId := editingId s |}.

Definition setEditingId (v : option string) (s : State) : State :=
  {| currentTab := currentTab s;
     foodRecords := foodRecords s;
     category := category s;
     brand := brand s;
     flavor := flavor s;
     rating := rating s;
     notes := notes s;
     filterCategory := filterCategory s;
     sortBy := sortBy s;
     weightRecords := weightRecords s;
     weightInput := weightInput s;
     measureDate := measureDate s;
     shoppingList := shoppingList s;
     shopName := shopName s;
     shopNote := shopNote s;
     isSubmitting := isSubmitting s;
     editingId := v |}.

(** The state of the first render.  [today] is the calendar date
    [new Date().toISOString().split('T')[0]] of that moment. *)
Definition initial (today : string) : State :=
  {| currentTab := food;
     foodRecords := [];
     category := canned;
     brand := EmptyString;
     flavor := EmptyString;
     rating := 0;
     notes := EmptyString;
     filterCategory := all;
     sortBy := by_date;
     weightRecords := [];
     weightInput := EmptyString;
     measureDate := today;
     shoppingList := [];
     shopName := EmptyString;
     shopNote := EmptyString;
     isSubmitting := false;
     editingId := None |}.

(** What a handler does to the world outside the state. *)
Inductive Effect : Type :=
  | alert (message : string)
  | confirm (message : string) (answer : bool)
  | console_error
  | scrollTo_top
  | remote (c : Firestore.Call)
  | unhandled_rejection.

(** The handlers that reach the store. *)
Inductive Op : Type :=
  | FoodSubmit
  | WeightSubmit
  | ShoppingSubmit
  | Delete
  | ToggleBought.

Definition is_submit (o : Op) : bool :=
  match o with
  | FoodSubmit | WeightSubmit | ShoppingSubmit => true
  | Delete | ToggleBought => false
  end.

(** A handler suspended at its [await]: the call it waits for and the rest
    of its body, which runs on the state of that later moment with the
    constants of the render the handler was created in. *)
Record Suspended : Type := mkSuspended {
  op : Op;
  request : Firestore.Call;
  resume : Firestore.Outcome -> State -> State * list Effect
}.

(** A handler run up to its [await] or its end. *)
Record Ran : Type := mkRan {
  next : State;
  out : list Effect;
  awaiting : option Suspended
}.

(** Truthiness of [editingId : string | null]. *)
Definition editing (e : option string) : bool :=
  match e with
  | Some i => negb (falsy i)
  | None => false
  end.

Definition clearForm (s : State) : State :=
  setNotes EmptyString (setRating 0 (setFlavor EmptyString (setBrand EmptyString s))).

Import Firestore.

(** The object literals of [handleFoodSubmit]: the five fields of the form,
    and the document of an insert, which adds the date and the timestamp.
    [now] is [Date.now()] and [today] is [new Date().toLocaleDateString()],
    both read when the document is built. *)
Definition formFields (s : State) : Fields :=
  [("category", VString (CategoryType_value (category s)));
   ("brand", VString (brand s));
   ("flavor", VString (flavor s));
   ("rating", VNumber (Num_of_Z (rating s)));
   ("notes", VString (notes s))].

Definition newFoodDocument (now : Z) (today : string) (s : State) : Fields :=
  (formFields s ++ [("date", VString today);
                    ("timestamp", VNumber (Num_of_Z now))])%list.

(** The call of [handleFoodSubmit]: an update of the record being edited, an
    insert when there is none. *)
Definition foodRequest (now : Z) (today : string) (s : State) : Call :=
  match editingId s with
  | Some i =>
      if falsy i then addDoc "records" (newFoodDocument now today s)
      else updateDoc "records" i (formFields s)
  | None => addDoc "records" (newFoodDocument now today s)
  end.

Definition handleFoodSubmit (now : Z) (today : string) (s : State) : Ran :=
  if falsy (brand s) || falsy (flavor s) || (rating s =? 0) then
    mkRan s [alert "請填寫品牌、口味並給予評分喔！"] None
  else
    let editingId := editingId s in
    mkRan (setIsSubmitting true s) []
      (Some (mkSuspended FoodSubmit (foodRequest now today s)
        (fun outcome s' =>
           match outcome with
           | Resolved =>
               let s1 := if editing editingId then setEditingId None s' else s' in
               let o1 := if editing editingId then [alert "修改成功！"] else [] in
               let s2 := clearForm s1 in
               let s3 := if negb (editing editingId) then setCategory canned s2 else s2 in
               (setIsSubmitting false s3, o1)
           | Rejected =>
               (setIsSubmitting false s', [console_error; alert "上傳失敗"])
           end))).

Definition handleWeightSubmit (s : State) : Ran :=
  if falsy (weightInput s) || falsy (measureDate s) then
    mkRan s [alert "請輸入體重和日期"] None
  else
    mkRan (setIsSubmitting true s) []
      (Some (mkSuspended WeightSubmit
        (addDoc "weight_records"
           [("weight", VNumber (parseFloat (weightInput s)));
            ("date", VString (measureDate s));
            ("timestamp", VNumber (Num_of_time (Date_getTime (measureDate s))))])
        (fun outcome s' =>
           match outcome with
           | Resolved => (setIsSubmitting false (setWeightInput EmptyString s'), [])
           | Rejected =>
               (setIsSubmitting false s', [console_error; alert "體重上傳失敗"])
           end))).

Definition handleShoppingSubmit (now : Z) (s : State) : Ran :=
  if falsy (shopName s) then
    mkRan s [alert "請輸入想買的東西名稱"] None
  else
    mkRan (setIsSubmitting true s) []
      (Some (mkSuspended ShoppingSubmit
        (addDoc "shopping_list"
           [("category", VString (CategoryType_value (category s)));
            ("name", VString (shopName s));
            ("note", VString (shopNote s));
            ("isBought", VBoolean false);
            ("timestamp", VNumber (Num_of_Z now))])
        (fun outcome s' =>
           match outcome with
           | Resolved =>
               (setIsSubmitting false
                  (setShopNote EmptyString (setShopName EmptyString s')), [])
           | Rejected =>
               (setIsSubmitting false s', [console_error; alert "新增失敗"])
           end))).

Definition handleEdit (rec : FoodRecord.t) (s : State) : Ran :=
  mkRan
    (setNotes (FoodRecord.notes rec)
      (setRating (FoodRecord.rating rec)
        (setFlavor (FoodRecord.flavor rec)
          (setBrand (FoodRecord.brand rec)
            (setCategory (FoodRecord.category rec)
              (setEditingId (Some (FoodRecord.id rec)) s))))))
    [scrollTo_top] None.

Definition handleCancelEdit (s : State) : State :=
  clearForm (setEditingId None s).

(** [handleDelete].  [answer] is what the user says to [window.confirm].
    There is no [try] around the awaited [deleteDoc]: a rejection leaves the
    handler uncaught. *)
Definition handleDelete (id colName : string) (answer : bool) (s : State) : Ran :=
  let asked := confirm "確定要刪除這筆紀錄嗎？" answer in
  if answer then
    let editingId := editingId s in
    mkRan s [asked]
      (Some (mkSuspended Delete (deleteDoc colName id)
        (fun outcome s' =>
           match outcome with
           | Resolved =>
               if bool_decide (editingId = Some id)
               then (handleCancelEdit s', [])
               else (s', [])
           | Rejected => (s', [unhandled_rejection])
           end)))
  else mkRan s [asked] None.

Definition toggleBought (item : ShoppingItem.t) (s : State) : Ran :=
  mkRan s []
    (Some (mkSuspended ToggleBought
      (updateDoc "shopping_list" (ShoppingItem.id item)
         [("isBought", VBoolean (negb (ShoppingItem.isBought item)))])
      (fun outcome s' =>
         match outcome with
         | Resolved => (s', [])
         | Rejected => (s', [console_error])
         end))).

(** *** The event loop

    The component between two events: its state, the handlers suspended at
    an [await], and everything done to the outside so far. *)
Record World : Type := mkWorld {
  app : State;
  pending : list Suspended;
  log : list Effect
}.

Definition boot (today : string) : World := mkWorld (initial today) [] [].

(** What the user, the store and the subscriptions can do. *)
Inductive Event : Type :=
  | SelectTab (t : TabType)
  | ChangeCategory (c : CategoryType)
  | ChangeBrand (v : string)
  | ChangeFlavor (v : string)
  | ClickStar (star : Z)
  | ChangeNotes (v : string)
  | ChangeFilter (f : FilterType)
  | ChangeSort (k : SortKey)
  | ChangeMeasureDate (v : string)
  | ChangeWeightInput (v : string)
  | ChangeShopName (v : string)
  | ChangeShopNote (v : string)
  | SubmitFood (now : Z) (today : string)
  | SubmitWeight
  | SubmitShopping (now : Z)
  | ClickEdit (i : nat)
  | ClickCancel
  | ClickDeleteFood (i : nat) (answer : bool)
  | ClickDeleteShopping (i : nat) (answer : bool)
  | ClickDeleteWeight (i : nat) (answer : bool)
  | ClickToggle (i : nat)
  | FoodSnapshot (data : list FoodRecord.t)
  | WeightSnapshot (data : list WeightRecord.t)
  | ShoppingSnapshot (data : list ShoppingItem.t)
  | Settle (i : nat) (outcome : Outcome).

(** The [disabled] attribute of the three submit buttons. *)
Definition submit_disabled (s : State) : bool := isSubmitting s.

Definition on_tab (t : TabType) (s : State) : bool :=
  bool_decide (currentTab s = t).

(** A handler has run: its effects are logged, and when it stopped at an
    [await] the call has gone out and the handler waits. *)
Definition ran (w : World) (r : Ran) : World :=
  match awaiting r with
  | Some k =>
      mkWorld (next r) (pending w ++ [k]) (log w ++ out r ++ [remote (request k)])
  | None => mkWorld (next r) (pending w) (log w ++ out r)
  end.

Definition put (w : World) (s : State) : World :=
  mkWorld s (pending w) (log w).

(** The awaited call of the [i]-th suspended handler ends and the handler
    runs to its end. *)
Definition settle (i : nat) (outcome : Outcome) (w : World) : option World :=
  match pending w !! i with
  | Some k =>
      let '(s', o) := resume k outcome (app w) in
      Some (mkWorld s' (take i (pending w) ++ drop (S i) (pending w)) (log w ++ o))
  | None => None
  end.

Section Loop.

Variable localeCompare : string -> string -> Z.

(** The food cards on screen. *)
Definition displayed (s : State) : list FoodRecord.t :=
  View.displayedRecords localeCompare (foodRecords s) (filterCategory s) (sortBy s).

Definition guard (b : bool) (w : World) : option World :=
  if b then Some w else None.

(** One event.  [None] when the control the event needs is not on screen or
    is disabled. *)
Definition step (w : World) (e : Event) : option World :=
  let s := app w in
  match e with
  | SelectTab t => Some (put w (setCurrentTab t s))
  | ChangeCategory c =>
      guard (on_tab food s || on_tab shopping s) (put w (setCategory c s))
  | ChangeBrand v => guard (on_tab food s) (put w (setBrand v s))
  | ChangeFlavor v => guard (on_tab food s) (put w (setFlavor v s))
  | ClickStar star =>
      guard (on_tab food s && (1 <=? star) && (star <=? 5)) (put w (setRating star s))
  | ChangeNotes v => guard (on_tab food s) (put w (setNotes v s))
  | ChangeFilter f => guard (on_tab food s) (put w (setFilterCategory f s))
  | ChangeSort k => guard (on_tab food s) (put w (setSortBy k s))
  | ChangeMeasureDate v => guard (on_tab weight s) (put w (setMeasureDate v s))
  | ChangeWeightInput v => guard (on_tab weight s) (put w (setWeightInput v s))
  | ChangeShopName v => guard (on_tab shopping s) (put w (setShopName v s))
  | ChangeShopNote v => guard (on_tab shopping s) (put w (setShopNote v s))
  | SubmitFood now today =>
      guard (on_tab food s && negb (submit_disabled s))
            (ran w (handleFoodSubmit now today s))
  | SubmitWeight =>
      guard (on_tab weight s && negb (submit_disabled s))
            (ran w (handleWeightSubmit s))
  | SubmitShopping now =>
      guard (on_tab shopping s && negb (submit_disabled s))
            (ran w (handleShoppingSubmit now s))
  | ClickEdit i =>
      match displayed s !! i with
      | Some rec => guard (on_tab food s) (ran w (handleEdit rec s))
      | None => None
      end
  | ClickCancel =>
      guard (on_tab food s && editing (editingId s)) (put w (handleCancelEdit s))
  | ClickDeleteFood i answer =>
      match displayed s !! i with
      | Some rec =>
          guard (on_tab food s)
                (ran w (handleDelete (FoodRecord.id rec) "records" answer s))
      | None => None
      end
  | ClickDeleteShopping i answer =>
      match shoppingList s !! i with
      | Some item =>
          guard (on_tab shopping s)
                (ran w (handleDelete (ShoppingItem.id item) "shopping_list" answer s))
      | None => None
      end
  | ClickDeleteWeight i answer =>
      match rev (weightRecords s) !! i with
      | Some rec =>
          guard (on_tab weight s)
                (ran w (handleDelete (WeightRecord.id rec) "weight_records" answer s))
      | None => None
      end
  | ClickToggle i =>
      match shoppingList s !! i with
      | Some item => guard (on_tab shopping s) (ran w (toggleBought item s))
      | None => None
      end
  | FoodSnapshot data => Some (put w (setFoodRecords data s))
  | WeightSnapshot data => Some (put w (setWeightRecords data s))
  | ShoppingSnapshot data => Some (put w (setShoppingList data s))
  | Settle i outcome => settle i outcome w
  end.

Fixpoint run (w : World) (es : list Event) : option World :=
  match es with
  | [] => Some w
  | e :: es' =>
      match step w e with
      | Some w' => run w' es'
      | None => None
      end
  end.

End Loop.

(** The submit handlers still waiting for the store, and the calls of a log. *)
Definition submits_in_flight (w : World) : list Suspended :=
  List.filter (fun k => is_submit (op k)) (pending w).

Definition calls (l : list Effect) : list Call :=
  omap (fun e => match e with remote c => Some c | _ => None end) l.

Definition alerts (l : list Effect) : list string :=
  omap (fun e => match e with alert m => Some m | _ => None end) l.

(** *** The invariant of the in-flight flag

    The rest of a submit handler ends with the flag down whatever the
    outcome; the rest of any other handler leaves the flag alone. *)
Definition well_resumed (k : Suspended) : Prop :=
  forall outcome s',
    isSubmitting (resume k outcome s').1
    = if is_submit (op k) then false else isSubmitting s'.




Definition other_shape (s : State) (r : Ran) : Prop :=
  isSubmitting (next r) = isSubmitting s /\
  match awaiting r with
  | Some k => is_submit (op k) = false /\ well_resumed k
  | None => True
  end.

End App.

(* ===================================================================== *)
(** ** The catalogue: categories, brands, stars *)
(* ===================================================================== *)

Module Catalog.

Definition categoryOptions : list (CategoryType * string) :=
  [(canned, "主食/副食罐頭");
   (raw, "生食");
   (pouch, "餐包");
   (dry, "乾飼料");
   (litter, "貓砂")].

(** [categoryOptions.find(c => c.value === val)?.label]; [None] is the
    [undefined] of a value that is in no option. *)
Definition getCategoryLabel (val : CategoryType) : option string :=
  snd <$> List.find (fun c => bool_decide (c.1 = val)) categoryOptions.

Definition defaultBrandData (c : CategoryType) : list string :=
  match c with
  | canned => ["ZiwiPeak 巔峰"; "K9 Natural"; "Wellness"; "Instinct 原點";
               "Thrive 脆樂芙"; "Weruva 唯美味"]
  | raw => ["Big Dog 大狗"; "Primal"; "K9 Natural (生食)"; "汪喵星球"; "卡尼"; "心莫"]
  | pouch => ["Ciao"; "Sheba"; "Natural Balance"; "Wellness"]
  | dry => ["Orijen 渴望"; "Acana 愛肯拿"; "Nutrience 紐崔斯"; "Halo"]
  | litter => ["EverClean 藍鑽"; "Boxiecat"; "OdourLock"; "鐵鎚牌"]
  end.

(** [Array.from(new Set(l))]: a set keeps its values in the order they were
    first added, and adding a value it has does nothing. *)
Definition Set_add (acc : list string) (x : string) : list string :=
  if bool_decide (x ∈ acc) then acc else (acc ++ [x])%list.

Definition Set_from (l : list string) : list string := fold_left Set_add l [].

(** The brands offered under the brand field. *)
Definition availableBrands (category : CategoryType)
    (foodRecords : list FoodRecord.t) : list string :=
  Set_from
    (defaultBrandData category ++
     map FoodRecord.brand
       (List.filter (fun r => bool_decide (FoodRecord.category r = category))
          foodRecords))%list.

(** The five stars of the form: which of them carry the class [filled]. *)
Definition formStars (rating : Z) : list bool :=
  map (fun star => star <=? rating) [1; 2; 3; 4; 5].

(** The five small stars of a card: which of them are gold. *)
Definition cardStars (rating : Z) : list bool :=
  map (fun i => i <? rating) [0; 1; 2; 3; 4].

End Catalog.

(* ===================================================================== *)
(** ** The earlier versions of the component *)
(* ===================================================================== *)

(** The first [App.tsx] has the food form only and no editing; the second
    adds the edit session.  Their state variables are among those of the
    latest version, so their handlers are written over the same record and
    leave the other fields alone. *)

Module AppV1.
Import JS Firestore App.

Definition handleSubmit (now : Z) (today : string) (s : State) : Ran :=
  if falsy (brand s) || falsy (flavor s) || (rating s =? 0) then
    mkRan s [alert "請填寫品牌、口味並給予評分喔！"] None
  else
    mkRan (setIsSubmitting true s) []
      (Some (mkSuspended FoodSubmit
        (addDoc "records" (newFoodDocument now today s))
        (fun outcome s' =>
           match outcome with
           | Resolved => (setIsSubmitting false (clearForm s'), [])
           | Rejected =>
               (setIsSubmitting false s',
                [console_error; alert "上傳失敗，請檢查網路或是 Firebase 設定"])
           end))).

Definition handleDelete (id : string) (answer : bool) (s : State) : Ran :=
  let asked := confirm "確定要刪除這筆紀錄嗎？（所有人都不會再看到囉）" answer in
  if answer then
    mkRan s [asked]
      (Some (mkSuspended Delete (deleteDoc "records" id)
        (fun outcome s' =>
           match outcome with
           | Resolved => (s', [])
           | Rejected => (s', [console_error; alert "刪除失敗"])
           end)))
  else mkRan s [asked] None.

End AppV1.

Module AppV2.
Import JS Firestore App.

Definition handleSubmit (now : Z) (today : string) (s : State) : Ran :=
  if falsy (brand s) || falsy (flavor s) || (rating s =? 0) then
    mkRan s [alert "請填寫品牌、口味並給予評分喔！"] None
  else
    let editingId := editingId s in
    mkRan (setIsSubmitting true s) []
      (Some (mkSuspended FoodSubmit (foodRequest now today s)
        (fun outcome s' =>
           match outcome with
           | Resolved =>
               let s1 := if editing editingId then setEditingId None s' else s' in
               let o1 := if editing editingId then [alert "修改成功！"] else [] in
               let s2 := clearForm s1 in
               let s3 := if negb (editing editingId) then setCategory canned s2 else s2 in
               (setIsSubmitting false s3, o1)
           | Rejected =>
               (setIsSubmitting false s',
                [console_error; alert "上傳失敗，請檢查網路或是 Firebase 設定"])
           end))).

(** Here the awaited [deleteDoc] and the end of the edit session are inside
    a [try]. *)
Definition handleDelete (id : string) (answer : bool) (s : State) : Ran :=
  let asked := confirm "確定要刪除這筆紀錄嗎？刪掉就救不回來囉！" answer in
  if answer then
    let editingId := editingId s in
    mkRan s [asked]
      (Some (mkSuspended Delete (deleteDoc "records" id)
        (fun outcome s' =>
           match outcome with
           | Resolved =>
               if bool_decide (editingId = Some id)
               then (handleCancelEdit s', [])
               else (s', [])
           | Rejected => (s', [console_error; alert "刪除失敗"])
           end)))
  else mkRan s [asked] None.

End AppV2.

(* ===================================================================== *)
(** ** What reaches the store *)
(* ===================================================================== *)

Module Trace.
Import JS Firestore App.

(** The value of a field of an object literal. *)
Definition get (name : string) (data : Fields) : option Value :=
  snd <$> List.find (fun p => String.eqb p.1 name) data.

Definition text_filled (name : string) (data : Fields) : bool :=
  match get name data with
  | Some (VString v) => negb (falsy v)
  | _ => false
  end.

Definition rating_of (data : Fields) : option Z :=
  match get "rating" data with
  | Some (VNumber (Dec z 0)) => Some z
  | _ => None
  end.

(** A document of the food form that its validation lets through. *)
Definition food_checked (data : Fields) : bool :=
  text_filled "brand" data && text_filled "flavor" data &&
  match rating_of data with
  | Some z => negb (z =? 0)
  | None => false
  end.

(** A call as the component makes them: to one of the three collections, a
    food document with brand, flavor and rating, a weight with its date, a
    shopping item with its name and not bought, an update of a shopping item
    that names [isBought] alone. *)
Definition checked (c : Call) : bool :=
  match c with
  | addDoc col data =>
      if String.eqb col "records" then
        food_checked data &&
        bool_decide (data.*1 = ["category"; "brand"; "flavor"; "rating"; "notes";
                                "date"; "timestamp"])
      else if String.eqb col "weight_records" then
        text_filled "date" data &&
        bool_decide (data.*1 = ["weight"; "date"; "timestamp"])
      else if String.eqb col "shopping_list" then
        text_filled "name" data &&
        match get "isBought" data with
        | Some (VBoolean false) => true
        | _ => false
        end
      else false
  | updateDoc col _ data =>
      if String.eqb col "records" then
        food_checked data &&
        bool_decide (data.*1 = ["category"; "brand"; "flavor"; "rating"; "notes"])
      else if String.eqb col "shopping_list" then
        bool_decide (data.*1 = ["isBought"])
      else false
  | deleteDoc col _ =>
      String.eqb col "records" || String.eqb col "weight_records" ||
      String.eqb col "shopping_list"
  end.

(** A food document whose rating is one of the five stars; calls that carry
    no food document pass. *)
Definition rated (c : Call) : bool :=
  match c with
  | addDoc col data | updateDoc col _ data =>
      if String.eqb col "records" then
        match rating_of data with
        | Some z => (1 <=? z) && (z <=? 5)
        | None => false
        end
      else true
  | deleteDoc _ _ => true
  end.

(** The events that are a click on a button or a box that writes. *)
Definition writes (e : Event) : bool :=
  match e with
  | SubmitFood _ _ | SubmitWeight | SubmitShopping _
  | ClickDeleteFood _ _ | ClickDeleteShopping _ _ | ClickDeleteWeight _ _
  | ClickToggle _ => true
  | _ => false
  end.

(** The rest of a handler makes no call. *)
Definition quiet_resumed (k : Suspended) : Prop :=
  forall outcome s', calls (resume k outcome s').2 = [].

(** The invariant of the calls: every handler that waits is quiet when it
    goes on, and every call made so far is one the component makes. *)
Definition calls_inv (w : World) : Prop :=
  Forall quiet_resumed (pending w) /\ forallb checked (calls (log w)) = true.

(** What a handler run up to its [await] may have sent. *)
Definition call_shape (r : Ran) : Prop :=
  calls (out r) = [] /\
  match awaiting r with
  | Some k => quiet_resumed k /\ checked (request k) = true
  | None => True
  end.

(** Ratings within the five stars: in the form (0 when none is chosen) and in
    the records held. *)
Definition stars (z : Z) : Prop := 1 <= z <= 5.

Definition rated_state (s : State) : Prop :=
  0 <= rating s <= 5 /\ Forall (fun r => stars (FoodRecord.rating r)) (foodRecords s).

Definition rated_resumed (k : Suspended) : Prop :=
  forall outcome s', rated_state s' -> rated_state (resume k outcome s').1.

Definition rated_inv (w : World) : Prop :=
  rated_state (app w) /\
  Forall rated_resumed (pending w) /\
  forallb rated (calls (log w)) = true.

(** The snapshots of an event carry ratings within the five stars. *)
Definition rated_event (e : Event) : Prop :=
  match e with
  | FoodSnapshot data => Forall (fun r => stars (FoodRecord.rating r)) data
  | _ => True
  end.

Definition rated_shape (s : State) (r : Ran) : Prop :=
  rated_state (next r) /\
  match awaiting r with
  | Some k => rated_resumed k /\ rated (request k) = true
  | None => True
  end.

End Trace.

(** More data for the examples. *)
Module Fixture.

(** A collation that orders brands by their length, to run examples of the
    brand order with. *)
Definition compare_lengths (a b : string) : Z :=
  Z.of_nat (String.length a) - Z.of_nat (String.length b).

Definition first_weight : WeightRecord.t :=
  WeightRecord.mk "w1" (JS.Dec 12 (-1)) "2025-04-01" (JS.Dec 1743465600000 0).

Definition second_weight : WeightRecord.t :=
  WeightRecord.mk "w2" (JS.Dec 15 (-1)) "2025-05-06" (JS.Dec 1746489600000 0).

(** The weight tab with two records held. *)
Definition weighing : App.World :=
  App.mkWorld
    (App.setWeightRecords [first_weight; second_weight]
       (App.setCurrentTab weight (App.initial "2025-05-06")))
    [] [].

End Fixture.

(* ===================================================================== *)
(** ** Data for the examples *)
(* ===================================================================== *)

Module Sample.

(** A collation to run examples with: comparison by code units.  The
    properties below hold for any collation and say so. *)
Definition compare_code_units (a b : string) : Z :=
  match String.compare a b with
  | Eq => 0
  | Lt => -1
  | Gt => 1
  end.

Definition orijen : FoodRecord.t :=
  FoodRecord.mk "r1" dry "Orijen 渴望" "雞肉" 5 EmptyString "2025/5/1" 1746057600000.

Definition ziwi : FoodRecord.t :=
  FoodRecord.mk "r2" canned "ZiwiPeak 巔峰" "牛肉" 4 "愛吃" "2025/5/2" 1746144000000.

Definition halo : FoodRecord.t :=
  FoodRecord.mk "r3" dry "Halo" "鮭魚" 5 "普通" "2025/4/20" 1745107200000.

Definition wish : ShoppingItem.t :=
  ShoppingItem.mk "s1" canned "巔峰牛肉罐" "看到特價再買" false 1746200000000.

Definition heap : View.Heap := {[ 7%nat := [ziwi; orijen; halo] ]}.

(** The food form filled in on the first day, nothing being edited. *)
Definition filled : App.State :=
  App.setRating 5
    (App.setFlavor "雞肉"
      (App.setBrand "Orijen 渴望"
        (App.setCategory dry (App.initial "2025-05-01")))).

(** The shopping form with a name typed, and the state after the edit
    button of a dry food record was clicked with that name typed. *)
Definition named : App.State :=
  App.setShopName "巔峰牛肉罐" (App.initial "2025-05-01").

Definition editing_orijen : App.State :=
  App.next (App.handleEdit orijen (App.setFoodRecords [orijen] named)).

(** A store holding the two sample documents. *)
Definition store : Firestore.Store :=
  {[ ("records", "r1") :=
       {[ "category" := Firestore.VString "dry";
          "brand" := Firestore.VString "Orijen";
          "flavor" := Firestore.VString "雞";
          "rating" := Firestore.VNumber (JS.Dec 3 0);
          "notes" := Firestore.VString EmptyString;
          "date" := Firestore.VString "2025/5/1";
          "timestamp" := Firestore.VNumber (JS.Dec 1746057600000 0) ]};
     ("shopping_list", "s1") :=
       {[ "category" := Firestore.VString "canned";
          "name" := Firestore.VString "巔峰牛肉罐";
          "note" := Firestore.VString "看到特價再買";
          "isBought" := Firestore.VBoolean false;
          "timestamp" := Firestore.VNumber (JS.Dec 1746200000000 0) ]} ]}.

End Sample.

(** What the spec asks of the weight form before it may reach the store:
    the weight text reads as a positive number and the date is not empty. *)
Definition spec_positive_number (n : JS.Num) : bool :=
  match n with
  | JS.Dec m _ => 0 <? m
  | JS.Infinite negative => negb negative
  | JS.NaN => false
  end.

Definition spec_weight_fields_valid (s : App.State) : bool :=
  spec_positive_number (JS.parseFloat (App.weightInput s)) &&
  negb (JS.falsy (App.measureDate s)).

(* ===================================================================== *)
(** * Properties *)
(* ===================================================================== *)

(** ** The age formatter *)

Example birthday_epoch_day :
  JS.Date_getTime "2025-04-01" = Some (20179 * JS.MS_PER_DAY).
Proof. reflexivity. Qed.

Example unix_epoch : JS.Date_getTime "1970-01-01" = Some 0.
Proof. reflexivity. Qed.

Example leap_day : JS.Date_getTime "2024-02-29" = Some (19782 * JS.MS_PER_DAY).
Proof. reflexivity. Qed.

Example no_leap_day : JS.Date_getTime "2025-02-29" = None.
Proof. reflexivity. Qed.

Example age_35_days : Age.calculateAgeLabel "2025-05-06" = "1個月5天".
Proof. reflexivity. Qed.

Example age_before_birth : Age.calculateAgeLabel "2025-03-02" = "1個月".
Proof. reflexivity. Qed.

Example age_invalid : Age.calculateAgeLabel "yesterday" = "NaN個月NaN天".
Proof. reflexivity. Qed.

(** Whole days apart give that many elapsed days, whichever date is first. *)
Lemma ceil_div_whole (n : Z) : JS.Math_ceil_div (n * JS.MS_PER_DAY) JS.MS_PER_DAY = n.
Proof.
  unfold JS.Math_ceil_div.
  replace (- (n * JS.MS_PER_DAY)) with ((- n) * JS.MS_PER_DAY) by ring.
  rewrite Z.div_mul; [lia | discriminate].
Qed.

Lemma diffDays_whole (dateString : string) (birth target n : Z) :
  JS.Date_getTime Age.DUDU_BIRTHDAY = Some birth ->
  JS.Date_getTime dateString = Some target ->
  Z.abs (target - birth) = n * JS.MS_PER_DAY ->
  Age.diffDays dateString = Some n.
Proof.
  intros Hb Ht Hn. unfold Age.diffDays. rewrite Hb, Ht. cbv zeta.
  rewrite Hn. now rewrite ceil_div_whole.
Qed.

(** The date-only parser always answers with a midnight. *)
Lemma Date_getTime_midnight (s : string) (t : Z) :
  JS.Date_getTime s = Some t -> exists d, t = d * JS.MS_PER_DAY.
Proof.
  unfold JS.Date_getTime. intros H.
  repeat match type of H with
         | match ?x with _ => _ end = _ => destruct x; try discriminate
         | (if ?x then _ else _) = _ => destruct x; try discriminate
         end.
  injection H as <-. eauto.
Qed.

(** C2, as the spec words its third value: 33 days after the birthday the
    label is not the months with the three days. *)
Lemma age_label_33_days_cx :
  Age.diffDays "2025-05-04" = Some 33 /\
  Age.calculateAgeLabel "2025-05-04" = "1個月" /\
  Age.calculateAgeLabel "2025-05-04" <> "1個月3天".
Proof. split; [reflexivity | split; [reflexivity | discriminate]]. Qed.

(** C2 (amended): on the birthday the label is 0 days; 30 days apart it is
    one month; 33 and 34 days apart it is one month as well, the remainders
    3 and 4 being below 5 and dropped. *)
Theorem calculateAgeLabel_boundaries (dateString : string) (birth target : Z) :
  JS.Date_getTime Age.DUDU_BIRTHDAY = Some birth ->
  JS.Date_getTime dateString = Some target ->
  (target = birth -> Age.calculateAgeLabel dateString = "0天") /\
  (Z.abs (target - birth) = 30 * JS.MS_PER_DAY ->
     Age.calculateAgeLabel dateString = "1個月") /\
  (Z.abs (target - birth) = 33 * JS.MS_PER_DAY ->
     Age.calculateAgeLabel dateString = "1個月") /\
  (Z.abs (target - birth) = 34 * JS.MS_PER_DAY ->
     Age.calculateAgeLabel dateString = "1個月").
Proof.
  intros Hb Ht.
  assert (Hdays : forall n, Z.abs (target - birth) = n * JS.MS_PER_DAY ->
                            Age.diffDays dateString = Some n)
    by (intros n Hn; now apply (diffDays_whole dateString birth target n)).
  unfold Age.calculateAgeLabel. repeat split.
  - intros ->. rewrite (Hdays 0); [reflexivity | now rewrite Z.sub_diag].
  - intros Hn. now rewrite (Hdays 30 Hn).
  - intros Hn. now rewrite (Hdays 33 Hn).
  - intros Hn. now rewrite (Hdays 34 Hn).
Qed.

Lemma calculateAgeLabel_boundaries_witness :
  JS.Date_getTime Age.DUDU_BIRTHDAY = Some 1743465600000 /\
  JS.Date_getTime "2025-05-04" = Some 1746316800000 /\
  Age.calculateAgeLabel "2025-05-04" = "1個月".
Proof.
  split; [reflexivity | split; [reflexivity |]].
  destruct (calculateAgeLabel_boundaries "2025-05-04" 1743465600000 1746316800000
              eq_refl eq_refl) as (_ & _ & H33 & _).
  apply H33. reflexivity.
Defined.

(** ** The projection of the food records *)

Section Sorting.

Context {A : Type} (cmp : A -> A -> Z).

Lemma sort_insert_perm (x : A) (l : list A) : View.sort_insert cmp x l ≡ₚ x :: l.
Proof.
  induction l as [|y l IH]; simpl; [done|].
  destruct (0 <? cmp x y); [|done].
  rewrite IH. apply Permutation_swap.
Qed.

(** The sort only reorders. *)
Lemma Array_sort_perm (l : list A) : View.Array_sort cmp l ≡ₚ l.
Proof.
  induction l as [|x l IH]; simpl; [done|].
  now rewrite sort_insert_perm, IH.
Qed.

Lemma Array_sort_length (l : list A) : length (View.Array_sort cmp l) = length l.
Proof. apply Permutation_length, Array_sort_perm. Qed.

(** A class [P] of records that never compare greater than one another keeps
    its order of arrival: the one put in stops at the first of its class. *)
Section Class.

Variable P : A -> bool.
Hypothesis ties : forall x y, P x = true -> P y = true -> cmp x y <= 0.

Lemma sort_insert_filter_in (x : A) (l : list A) :
  P x = true ->
  List.filter P (View.sort_insert cmp x l) = x :: List.filter P l.
Proof.
  intros Hx. induction l as [|y l IH]; simpl.
  - now rewrite Hx.
  - destruct (0 <? cmp x y) eqn:Hc; simpl.
    + destruct (P y) eqn:Hy.
      * apply Z.ltb_lt in Hc. specialize (ties x y Hx Hy). lia.
      * exact IH.
    + now rewrite Hx.
Qed.

Lemma sort_insert_filter_out (x : A) (l : list A) :
  P x = false ->
  List.filter P (View.sort_insert cmp x l) = List.filter P l.
Proof.
  intros Hx. induction l as [|y l IH]; simpl.
  - now rewrite Hx.
  - destruct (0 <? cmp x y); simpl.
    + now rewrite IH.
    + now rewrite Hx.
Qed.

Lemma Array_sort_stable (l : list A) :
  List.filter P (View.Array_sort cmp l) = List.filter P l.
Proof.
  induction l as [|x l IH]; simpl; [done|].
  destruct (P x) eqn:Hx.
  - now rewrite sort_insert_filter_in, IH.
  - now rewrite sort_insert_filter_out, IH.
Qed.

End Class.

(** With a comparator that orders its arguments consistently the result is
    in order. *)
Section Ordered.

Hypothesis total : forall x y, 0 < cmp x y -> cmp y x <= 0.
Hypothesis trans : forall x y z, cmp x y <= 0 -> cmp y z <= 0 -> cmp x z <= 0.

Lemma sort_insert_sorted (x : A) (l : list A) :
  StronglySorted (fun a b => cmp a b <= 0) l ->
  StronglySorted (fun a b => cmp a b <= 0) (View.sort_insert cmp x l).
Proof.
  induction 1 as [|y l Hs IH Hy]; simpl.
  - repeat constructor.
  - destruct (0 <? cmp x y) eqn:Hc.
    + apply Z.ltb_lt in Hc. constructor; [exact IH|].
      rewrite sort_insert_perm. constructor; [auto | exact Hy].
    + apply Z.ltb_ge in Hc. constructor; [now constructor|].
      constructor; [exact Hc|].
      eapply Forall_impl; [exact Hy|]. intros z Hz. simpl in Hz. eauto.
Qed.

Lemma Array_sort_sorted (l : list A) :
  StronglySorted (fun a b => cmp a b <= 0) (View.Array_sort cmp l).
Proof.
  induction l as [|x l IH]; simpl; [constructor|].
  now apply sort_insert_sorted.
Qed.

End Ordered.

End Sorting.

Lemma StronglySorted_weaken {A} (R R' : A -> A -> Prop) (l : list A) :
  (forall a b, R a b -> R' a b) -> StronglySorted R l -> StronglySorted R' l.
Proof.
  intros HR. induction 1 as [|x l Hs IH Hx]; constructor; [exact IH|].
  eapply Forall_impl; [exact Hx|]. intros b Hb. simpl in Hb. auto.
Qed.

(** Newest first and best first are consistent orders. *)
Lemma displayedRecords_by_date_sorted lc (l : list FoodRecord.t) (f : FilterType) :
  StronglySorted (fun a b => FoodRecord.timestamp b <= FoodRecord.timestamp a)
    (View.displayedRecords lc l f by_date).
Proof.
  unfold View.displayedRecords.
  eapply StronglySorted_weaken; [|apply Array_sort_sorted].
  - simpl. intros a b. lia.
  - simpl. intros; lia.
  - simpl. intros; lia.
Qed.

Lemma displayedRecords_by_rating_sorted lc (l : list FoodRecord.t) (f : FilterType) :
  StronglySorted (fun a b => FoodRecord.rating b <= FoodRecord.rating a)
    (View.displayedRecords lc l f by_rating).
Proof.
  unfold View.displayedRecords.
  eapply StronglySorted_weaken; [|apply Array_sort_sorted].
  - simpl. intros a b. lia.
  - simpl. intros; lia.
  - simpl. intros; lia.
Qed.

(** What is shown is what passes the filter, reordered. *)
Lemma displayedRecords_perm lc (l : list FoodRecord.t) (f : FilterType) (k : SortKey) :
  View.displayedRecords lc l f k ≡ₚ List.filter (View.keeps f) l.
Proof. apply Array_sort_perm. Qed.

(** On the heap the projection fills one new array and writes nowhere else. *)
Lemma displayedRecords_heap_spec lc (foodRecords : nat) (l : list FoodRecord.t)
    (f : FilterType) (k : SortKey) (h : View.Heap) :
  h !! foodRecords = Some l ->
  View.displayedRecords_heap lc foodRecords f k h =
  Some (fresh (dom h), <[fresh (dom h) := View.displayedRecords lc l f k]> h).
Proof.
  intros Hl. unfold View.displayedRecords_heap, View.heap_filter, View.heap_sort.
  rewrite Hl. simpl. rewrite lookup_insert_eq, insert_insert_eq. reflexivity.
Qed.

Lemma fresh_not_held (h : View.Heap) (a : nat) (l : list FoodRecord.t) :
  h !! a = Some l -> fresh (dom h) <> a.
Proof.
  intros Hl Heq. apply (is_fresh (dom h)). rewrite Heq.
  apply elem_of_dom. eauto.
Qed.

(** Records with the same sort key never compare greater than one another,
    given that the collation finds a string equal to itself. *)
Lemma compare_same_key lc (k : SortKey) (key : View.Key) (x y : FoodRecord.t) :
  (forall s, lc s s = 0) ->
  bool_decide (View.sort_key k x = key) = true ->
  bool_decide (View.sort_key k y = key) = true ->
  View.compare lc k x y <= 0.
Proof.
  intros Hrefl Hx%bool_decide_eq_true Hy%bool_decide_eq_true. subst key.
  destruct k; simpl in *; injection Hy as Hy.
  - lia.
  - rewrite Hy, Hrefl. lia.
  - lia.
Qed.

(** C8: the projection leaves the array it reads as it was and writes only
    the new array it returns; projecting the same snapshot again gives the same
    sequence; records with equal sort keys stay in the order of the snapshot. *)
Theorem displayedRecords_pure_deterministic_stable
    (localeCompare : string -> string -> Z) (foodRecords : nat)
    (snapshot : list FoodRecord.t) (f : FilterType) (k : SortKey) (h : View.Heap) :
  (forall s, localeCompare s s = 0) ->
  h !! foodRecords = Some snapshot ->
  exists shown h',
    View.displayedRecords_heap localeCompare foodRecords f k h = Some (shown, h') /\
    shown <> foodRecords /\
    h' !! foodRecords = Some snapshot /\
    (forall a, a <> shown -> h' !! a = h !! a) /\
    h' !! shown = Some (View.displayedRecords localeCompare snapshot f k) /\
    (exists again h'',
       View.displayedRecords_heap localeCompare foodRecords f k h' = Some (again, h'') /\
       h'' !! again = h' !! shown /\
       h'' !! shown = h' !! shown /\
       h'' !! foodRecords = Some snapshot) /\
    (forall key,
       List.filter (fun rec => bool_decide (View.sort_key k rec = key))
         (View.displayedRecords localeCompare snapshot f k) =
       List.filter (fun rec => bool_decide (View.sort_key k rec = key))
         (List.filter (View.keeps f) snapshot)).
Proof.
  intros Hrefl Hl.
  pose proof (fresh_not_held h foodRecords snapshot Hl) as Hne.
  assert (Hl' : <[fresh (dom h) := View.displayedRecords localeCompare snapshot f k]> h
                  !! foodRecords = Some snapshot)
    by now rewrite lookup_insert_ne.
  eexists _, _. split; [apply displayedRecords_heap_spec, Hl|].
  split; [exact Hne|]. split; [exact Hl'|].
  split; [intros a Ha; now rewrite lookup_insert_ne|].
  split; [apply lookup_insert_eq|].
  split.
  - pose proof (fresh_not_held _ _ _ Hl') as Hne'.
    eexists _, _. split; [apply displayedRecords_heap_spec, Hl'|].
    split; [now rewrite !lookup_insert_eq|].
    split; [rewrite lookup_insert_ne; [reflexivity|]|].
    + intros Heq. apply (is_fresh (dom (<[fresh (dom h) :=
        View.displayedRecords localeCompare snapshot f k]> h))).
      rewrite Heq. apply elem_of_dom. rewrite lookup_insert_eq. eauto.
    + now rewrite lookup_insert_ne.
  - intros key. unfold View.displayedRecords. apply Array_sort_stable.
    intros x y. now apply compare_same_key.
Qed.

Lemma compare_code_units_refl (s : string) : Sample.compare_code_units s s = 0.
Proof.
  unfold Sample.compare_code_units.
  pose proof (String.compare_antisym s s) as H.
  destruct (String.compare s s); simpl in H; congruence.
Qed.

Lemma displayedRecords_pure_deterministic_stable_witness :
  (forall s, Sample.compare_code_units s s = 0) /\
  Sample.heap !! 7%nat = Some [Sample.ziwi; Sample.orijen; Sample.halo] /\
  exists shown h',
    View.displayedRecords_heap Sample.compare_code_units 7 (only dry) by_rating
      Sample.heap = Some (shown, h') /\
    h' !! 7%nat = Some [Sample.ziwi; Sample.orijen; Sample.halo] /\
    h' !! shown = Some [Sample.orijen; Sample.halo].
Proof.
  split; [exact compare_code_units_refl|]. split; [reflexivity|].
  destruct (displayedRecords_pure_deterministic_stable
              Sample.compare_code_units 7 [Sample.ziwi; Sample.orijen; Sample.halo]
              (only dry) by_rating Sample.heap compare_code_units_refl eq_refl)
    as (shown & h' & Hrun & _ & Hkept & _ & Hshown & _).
  exists shown, h'. split; [exact Hrun|]. split; [exact Hkept|]. exact Hshown.
Defined.

Example displayed_by_rating :
  View.displayedRecords Sample.compare_code_units
    [Sample.ziwi; Sample.orijen; Sample.halo] all by_rating
  = [Sample.orijen; Sample.halo; Sample.ziwi].
Proof. reflexivity. Qed.

Example displayed_by_date :
  View.displayedRecords Sample.compare_code_units
    [Sample.ziwi; Sample.orijen; Sample.halo] all by_date
  = [Sample.ziwi; Sample.orijen; Sample.halo].
Proof. reflexivity. Qed.

Example displayed_by_brand :
  View.displayedRecords Sample.compare_code_units
    [Sample.ziwi; Sample.orijen; Sample.halo] (only dry) by_brand
  = [Sample.halo; Sample.orijen].
Proof. reflexivity. Qed.

(** ** Validation of the forms *)

Lemma falsy_empty (s : string) : JS.falsy s = true <-> s = EmptyString.
Proof. destruct s; simpl; split; congruence. Qed.

Lemma falsy_filled (s : string) : JS.falsy s = false <-> s <> EmptyString.
Proof. destruct s; simpl; split; congruence. Qed.

(** C6: a food form with rating 0, no brand or no flavor stops at the
    validation: one message, no call to the store, nothing left waiting and
    the state as it was. *)
Theorem handleFoodSubmit_invalid_no_call
    (now : Z) (today : string) (s : App.State) (w : App.World) :
  App.rating s = 0 \/ App.brand s = EmptyString \/ App.flavor s = EmptyString ->
  App.handleFoodSubmit now today s
    = App.mkRan s [App.alert "請填寫品牌、口味並給予評分喔！"] None /\
  App.calls (App.log (App.ran w (App.handleFoodSubmit now today s)))
    = App.calls (App.log w) /\
  App.pending (App.ran w (App.handleFoodSubmit now today s)) = App.pending w.
Proof.
  intros H.
  assert (Hrun : App.handleFoodSubmit now today s
            = App.mkRan s [App.alert "請填寫品牌、口味並給予評分喔！"] None).
  { unfold App.handleFoodSubmit.
    destruct H as [H | [H | H]]; rewrite H; simpl;
      rewrite ?orb_true_r; reflexivity. }
  rewrite Hrun. split; [reflexivity|]. unfold App.ran, App.calls. simpl.
  split; [|reflexivity].
  rewrite omap_app. simpl. now rewrite app_nil_r.
Qed.

Lemma handleFoodSubmit_invalid_no_call_witness :
  App.calls (App.log (App.ran (App.boot "2025-05-01")
     (App.handleFoodSubmit 1746057600000 "2025/5/1" (App.initial "2025-05-01"))))
  = [].
Proof.
  destruct (handleFoodSubmit_invalid_no_call 1746057600000 "2025/5/1"
              (App.initial "2025-05-01") (App.boot "2025-05-01")
              (or_introl eq_refl)) as (_ & Hcalls & _).
  exact Hcalls.
Defined.

(** C3, as the spec words it: a weight text that is not a positive number
    passes the check of the form and goes to the store. *)
Lemma weight_submit_nonpositive_cx :
  let s := App.setWeightInput "-1"
             (App.setCurrentTab weight (App.initial "2025-05-01")) in
  spec_weight_fields_valid s = false /\
  App.calls (App.log (App.ran (App.mkWorld s [] []) (App.handleWeightSubmit s)))
  = [Firestore.addDoc "weight_records"
       [("weight", Firestore.VNumber (JS.Dec (-1) 0));
        ("date", Firestore.VString "2025-05-01");
        ("timestamp", Firestore.VNumber (JS.Dec 1746057600000 0))]].
Proof. split; reflexivity. Qed.

(** C3 (amended): the weight form checks that the weight text and the date
    are not empty; when one is empty there is one message, no call to the
    store, and the state stays as it was. *)
Theorem handleWeightSubmit_empty_no_call (s : App.State) (w : App.World) :
  App.weightInput s = EmptyString \/ App.measureDate s = EmptyString ->
  App.handleWeightSubmit s = App.mkRan s [App.alert "請輸入體重和日期"] None /\
  App.calls (App.log (App.ran w (App.handleWeightSubmit s)))
    = App.calls (App.log w) /\
  App.pending (App.ran w (App.handleWeightSubmit s)) = App.pending w.
Proof.
  intros H.
  assert (Hrun : App.handleWeightSubmit s
            = App.mkRan s [App.alert "請輸入體重和日期"] None).
  { unfold App.handleWeightSubmit.
    destruct H as [H | H]; rewrite H; simpl; rewrite ?orb_true_r; reflexivity. }
  rewrite Hrun. split; [reflexivity|]. unfold App.ran, App.calls. simpl.
  split; [|reflexivity].
  rewrite omap_app. simpl. now rewrite app_nil_r.
Qed.

Lemma handleWeightSubmit_empty_no_call_witness :
  App.handleWeightSubmit (App.initial "2025-05-01")
  = App.mkRan (App.initial "2025-05-01") [App.alert "請輸入體重和日期"] None.
Proof.
  destruct (handleWeightSubmit_empty_no_call (App.initial "2025-05-01")
              (App.boot "2025-05-01") (or_introl eq_refl)) as (Hrun & _).
  exact Hrun.
Defined.

(** A weight form with both fields filled sends exactly what it holds, the
    weight as [parseFloat] reads it. *)
Lemma handleWeightSubmit_filled (s : App.State) :
  App.weightInput s <> EmptyString ->
  App.measureDate s <> EmptyString ->
  exists k,
    App.awaiting (App.handleWeightSubmit s) = Some k /\
    App.request k = Firestore.addDoc "weight_records"
      [("weight", Firestore.VNumber (JS.parseFloat (App.weightInput s)));
       ("date", Firestore.VString (App.measureDate s));
       ("timestamp",
        Firestore.VNumber (JS.Num_of_time (JS.Date_getTime (App.measureDate s))))].
Proof.
  intros Hw%falsy_filled Hd%falsy_filled. unfold App.handleWeightSubmit.
  rewrite Hw, Hd. simpl. eauto.
Qed.

(** ** Creating a food record *)

(** C5, as the spec words it: a valid record submitted while idle whose
    insert the store rejects leaves the category as chosen, not [canned]. *)
Lemma food_create_rejected_cx :
  option_map
    (fun w => (App.calls (App.log w), App.isSubmitting (App.app w),
               App.editingId (App.app w), App.category (App.app w)))
    (App.run Sample.compare_code_units (App.boot "2025-05-01")
       [App.ChangeCategory dry; App.ChangeBrand "Orijen 渴望";
        App.ChangeFlavor "雞肉"; App.ClickStar 5;
        App.SubmitFood 1746057600000 "2025/5/1";
        App.Settle 0 Firestore.Rejected])
  = Some ([Firestore.addDoc "records"
             [("category", Firestore.VString "dry");
              ("brand", Firestore.VString "Orijen 渴望");
              ("flavor", Firestore.VString "雞肉");
              ("rating", Firestore.VNumber (JS.Dec 5 0));
              ("notes", Firestore.VString EmptyString);
              ("date", Firestore.VString "2025/5/1");
              ("timestamp", Firestore.VNumber (JS.Dec 1746057600000 0))]],
          false, None, dry).
Proof. reflexivity. Qed.

(** The scenario of the spec, the insert accepted. *)
Example food_create_resolved :
  option_map
    (fun w => (length (App.calls (App.log w)), App.isSubmitting (App.app w),
               App.editingId (App.app w), App.category (App.app w),
               App.brand (App.app w), App.rating (App.app w)))
    (App.run Sample.compare_code_units (App.boot "2025-05-01")
       [App.ChangeCategory dry; App.ChangeBrand "Orijen 渴望";
        App.ChangeFlavor "雞肉"; App.ClickStar 5;
        App.SubmitFood 1746057600000 "2025/5/1";
        App.Settle 0 Firestore.Resolved])
  = Some (1%nat, false, None, canned, EmptyString, 0).
Proof. reflexivity. Qed.

(** C5 (amended): a valid food record submitted while idle sends exactly one
    insert with the fields of the form, a date and a timestamp.  When the call
    ends, either way, the flag is down, the session is still idle and no
    further call is made; the category goes back to [canned] and the fields are
    emptied when the insert succeeded, and the form stays as it is, with a
    message, when it failed. *)
Theorem handleFoodSubmit_create
    (now : Z) (today : string) (s : App.State) (w : App.World) :
  App.brand s <> EmptyString ->
  App.flavor s <> EmptyString ->
  1 <= App.rating s <= 5 ->
  App.editing (App.editingId s) = false ->
  exists k,
    App.handleFoodSubmit now today s
      = App.mkRan (App.setIsSubmitting true s) [] (Some k) /\
    App.request k = Firestore.addDoc "records"
      [("category", Firestore.VString (CategoryType_value (App.category s)));
       ("brand", Firestore.VString (App.brand s));
       ("flavor", Firestore.VString (App.flavor s));
       ("rating", Firestore.VNumber (JS.Num_of_Z (App.rating s)));
       ("notes", Firestore.VString (App.notes s));
       ("date", Firestore.VString today);
       ("timestamp", Firestore.VNumber (JS.Num_of_Z now))] /\
    App.calls (App.log (App.ran w (App.handleFoodSubmit now today s)))
      = (App.calls (App.log w) ++ [App.request k])%list /\
    forall outcome s',
      App.calls (App.resume k outcome s').2 = [] /\
      App.isSubmitting (App.resume k outcome s').1 = false /\
      App.editingId (App.resume k outcome s').1 = App.editingId s' /\
      match outcome with
      | Firestore.Resolved =>
          App.category (App.resume k outcome s').1 = canned /\
          App.brand (App.resume k outcome s').1 = EmptyString /\
          App.flavor (App.resume k outcome s').1 = EmptyString /\
          App.rating (App.resume k outcome s').1 = 0 /\
          App.notes (App.resume k outcome s').1 = EmptyString /\
          (App.resume k outcome s').2 = []
      | Firestore.Rejected =>
          (App.resume k outcome s').1 = App.setIsSubmitting false s' /\
          (App.resume k outcome s').2 = [App.console_error; App.alert "上傳失敗"]
      end.
Proof.
  intros Hb%falsy_filled Hf%falsy_filled Hr Hidle.
  assert (Hz : (App.rating s =? 0) = false) by (apply Z.eqb_neq; lia).
  unfold App.handleFoodSubmit. rewrite Hb, Hf, Hz, Hidle. simpl.
  assert (Hreq : App.foodRequest now today s
                 = Firestore.addDoc "records" (App.newFoodDocument now today s)).
  { unfold App.foodRequest. unfold App.editing in Hidle.
    destruct (App.editingId s) as [i|]; [|reflexivity].
    apply negb_false_iff in Hidle. now rewrite Hidle. }
  eexists. split; [reflexivity|]. simpl. split; [exact Hreq|].
  split.
  - unfold App.ran, App.calls. simpl. rewrite omap_app. reflexivity.
  - intros [] s'; simpl; repeat split; reflexivity.
Qed.

Lemma handleFoodSubmit_create_witness :
  App.calls (App.log (App.ran (App.boot "2025-05-01")
     (App.handleFoodSubmit 1746057600000 "2025/5/1" Sample.filled)))
  = [Firestore.addDoc "records"
       [("category", Firestore.VString "dry");
        ("brand", Firestore.VString "Orijen 渴望");
        ("flavor", Firestore.VString "雞肉");
        ("rating", Firestore.VNumber (JS.Dec 5 0));
        ("notes", Firestore.VString EmptyString);
        ("date", Firestore.VString "2025/5/1");
        ("timestamp", Firestore.VNumber (JS.Dec 1746057600000 0))]].
Proof.
  destruct (handleFoodSubmit_create 1746057600000 "2025/5/1" Sample.filled
              (App.boot "2025-05-01"))
    as (k & _ & Hreq & Hcalls & _).
  - discriminate.
  - discriminate.
  - simpl. lia.
  - reflexivity.
  - rewrite Hcalls, Hreq. reflexivity.
Defined.

(** ** Partial updates *)

(** A field name that differs from each name of a list written out. *)
Ltac not_among :=
  let H := fresh "H" in
  intros H;
  repeat (apply elem_of_cons in H as [H|H]; [discriminate H|]);
  apply elem_of_nil in H; exact H.

Lemma merge_fields_frame (data : Firestore.Fields) (d : gmap string Firestore.Value)
    (f : string) :
  f ∉ data.*1 -> Firestore.merge_fields data d !! f = d !! f.
Proof.
  intros Hf. unfold Firestore.merge_fields.
  apply lookup_union_r. now apply not_elem_of_list_to_map_1.
Qed.

Lemma merge_fields_written (data : Firestore.Fields) (d : gmap string Firestore.Value)
    (f : string) (v : Firestore.Value) :
  NoDup data.*1 -> (f, v) ∈ data -> Firestore.merge_fields data d !! f = Some v.
Proof.
  intros Hnd Hin. unfold Firestore.merge_fields.
  apply lookup_union_Some_l. now apply elem_of_list_to_map_1.
Qed.

(** An update that reaches a stored document replaces the fields it names
    and leaves every other field and every other document alone. *)
Lemma apply_updateDoc (newId col i : string) (data : Firestore.Fields)
    (store : Firestore.Store) (d : gmap string Firestore.Value) :
  store !! (col, i) = Some d ->
  exists store',
    Firestore.apply newId (Firestore.updateDoc col i data) store = Some store' /\
    store' !! (col, i) = Some (Firestore.merge_fields data d) /\
    forall j, j <> (col, i) -> store' !! j = store !! j.
Proof.
  intros Hd. simpl. rewrite Hd. eexists. split; [reflexivity|].
  split; [apply lookup_insert_eq|].
  intros j Hj. now apply lookup_insert_ne.
Qed.

(** C7: the update of a food record names the five fields of the form and
    nothing else, so the stored date and timestamp stay as they are; the
    toggle, in whatever state it is clicked, names [isBought] alone, with the
    value of the item negated. *)
Theorem updates_write_mutable_fields_only
    (now : Z) (today : string) (s t : App.State) (i : string)
    (item : ShoppingItem.t) (newId : string) (store : Firestore.Store)
    (rec old : gmap string Firestore.Value) :
  (App.editingId s = Some i -> i <> EmptyString ->
   App.brand s <> EmptyString -> App.flavor s <> EmptyString -> App.rating s <> 0 ->
   exists k,
     App.awaiting (App.handleFoodSubmit now today s) = Some k /\
     App.request k = Firestore.updateDoc "records" i (App.formFields s) /\
     (App.formFields s).*1 = ["category"; "brand"; "flavor"; "rating"; "notes"] /\
     (store !! ("records", i) = Some rec ->
      exists store' rec',
        Firestore.apply newId (App.request k) store = Some store' /\
        store' !! ("records", i) = Some rec' /\
        rec' !! "date" = rec !! "date" /\
        rec' !! "timestamp" = rec !! "timestamp" /\
        (forall f, f ∉ ["category"; "brand"; "flavor"; "rating"; "notes"] ->
                   rec' !! f = rec !! f) /\
        (forall f v, (f, v) ∈ App.formFields s -> rec' !! f = Some v) /\
        (forall j, j <> ("records", i) -> store' !! j = store !! j))) /\
  (exists k,
     App.toggleBought item t = App.mkRan t [] (Some k) /\
     App.request k = Firestore.updateDoc "shopping_list" (ShoppingItem.id item)
       [("isBought", Firestore.VBoolean (negb (ShoppingItem.isBought item)))] /\
     (store !! ("shopping_list", ShoppingItem.id item) = Some old ->
      exists store' new,
        Firestore.apply newId (App.request k) store = Some store' /\
        store' !! ("shopping_list", ShoppingItem.id item) = Some new /\
        new !! "isBought"
          = Some (Firestore.VBoolean (negb (ShoppingItem.isBought item))) /\
        (forall f, f <> "isBought" -> new !! f = old !! f) /\
        (forall j, j <> ("shopping_list", ShoppingItem.id item) ->
                   store' !! j = store !! j))).
Proof.
  split.
  - intros He Hi%falsy_filled Hb%falsy_filled Hf%falsy_filled Hr%Z.eqb_neq.
    assert (Hreq : App.foodRequest now today s
                   = Firestore.updateDoc "records" i (App.formFields s)).
    { unfold App.foodRequest. now rewrite He, Hi. }
    unfold App.handleFoodSubmit. rewrite Hb, Hf, Hr. simpl.
    eexists. split; [reflexivity|]. simpl. rewrite Hreq.
    split; [reflexivity|]. split; [reflexivity|]. intros Hrec.
    destruct (apply_updateDoc newId "records" i (App.formFields s) store rec Hrec)
      as (store' & Happly & Hnew & Hframe).
    eexists store', _. split; [exact Happly|]. split; [exact Hnew|].
    split; [apply merge_fields_frame; simpl; not_among|].
    split; [apply merge_fields_frame; simpl; not_among|].
    split; [intros f Hf'; now apply merge_fields_frame|].
    split; [|exact Hframe].
    intros f v Hin. apply merge_fields_written; [|exact Hin].
    apply (bool_decide_unpack _). reflexivity.
  - eexists. split; [reflexivity|]. simpl. split; [reflexivity|]. intros Hold.
    destruct (apply_updateDoc newId "shopping_list" (ShoppingItem.id item)
                [("isBought", Firestore.VBoolean (negb (ShoppingItem.isBought item)))]
                store old Hold)
      as (store' & Happly & Hnew & Hframe).
    eexists store', _. split; [exact Happly|]. split; [exact Hnew|].
    split.
    + apply merge_fields_written; [apply (bool_decide_unpack _); reflexivity|].
      apply list_elem_of_here.
    + split; [|exact Hframe].
      intros f Hf'. apply merge_fields_frame. simpl.
      intros Hin. apply list_elem_of_singleton in Hin. congruence.
Qed.

Lemma updates_write_mutable_fields_only_witness :
  (exists k store' rec',
     App.awaiting (App.handleFoodSubmit 1746144000000 "2025/5/2" Sample.editing_orijen)
       = Some k /\
     Firestore.apply "fresh" (App.request k) Sample.store = Some store' /\
     store' !! ("records", "r1") = Some rec' /\
     rec' !! "date" = Some (Firestore.VString "2025/5/1") /\
     rec' !! "rating" = Some (Firestore.VNumber (JS.Dec 5 0))) /\
  (exists k store' new,
     App.toggleBought Sample.wish (App.initial "2025-05-01")
       = App.mkRan (App.initial "2025-05-01") [] (Some k) /\
     App.request k = Firestore.updateDoc "shopping_list" "s1"
                       [("isBought", Firestore.VBoolean true)] /\
     Firestore.apply "fresh" (App.request k) Sample.store = Some store' /\
     store' !! ("shopping_list", "s1") = Some new /\
     new !! "isBought" = Some (Firestore.VBoolean true) /\
     new !! "name" = Some (Firestore.VString "巔峰牛肉罐")) /\
  (exists k,
     App.toggleBought
       (ShoppingItem.mk "s2" litter "鐵鎚牌" EmptyString true 1746300000000)
       (App.initial "2025-05-01")
       = App.mkRan (App.initial "2025-05-01") [] (Some k) /\
     App.request k = Firestore.updateDoc "shopping_list" "s2"
                       [("isBought", Firestore.VBoolean false)]).
Proof.
  destruct (updates_write_mutable_fields_only 1746144000000 "2025/5/2"
              Sample.editing_orijen (App.initial "2025-05-01") "r1" Sample.wish
              "fresh" Sample.store
              {[ "category" := Firestore.VString "dry";
                 "brand" := Firestore.VString "Orijen";
                 "flavor" := Firestore.VString "雞";
                 "rating" := Firestore.VNumber (JS.Dec 3 0);
                 "notes" := Firestore.VString EmptyString;
                 "date" := Firestore.VString "2025/5/1";
                 "timestamp" := Firestore.VNumber (JS.Dec 1746057600000 0) ]}
              {[ "category" := Firestore.VString "canned";
                 "name" := Firestore.VString "巔峰牛肉罐";
                 "note" := Firestore.VString "看到特價再買";
                 "isBought" := Firestore.VBoolean false;
                 "timestamp" := Firestore.VNumber (JS.Dec 1746200000000 0) ]})
    as [Hfood (kt & Htoggle & Htreq & Htstore)].
  destruct (Hfood eq_refl) as (k & Hk & _ & _ & Hstore);
    [discriminate | discriminate | discriminate | discriminate |].
  destruct Hstore as (store' & rec' & Happly & Hrec' & Hdate & _ & _ & Hwritten & _);
    [vm_compute; reflexivity|].
  destruct Htstore as (tstore' & new & Htapply & Hnew & Hbought & Hframe & _);
    [vm_compute; reflexivity|].
  destruct (updates_write_mutable_fields_only 1746144000000 "2025/5/2"
              Sample.editing_orijen (App.initial "2025-05-01") "r1"
              (ShoppingItem.mk "s2" litter "鐵鎚牌" EmptyString true 1746300000000)
              "fresh" Sample.store ∅ ∅)
    as [_ (kb & Hbtoggle & Hbreq & _)].
  split; [|split].
  - exists k, store', rec'. split; [exact Hk|]. split; [exact Happly|].
    split; [exact Hrec'|]. split.
    + rewrite Hdate. vm_compute. reflexivity.
    + apply Hwritten. unfold App.formFields.
      do 3 apply list_elem_of_further. apply list_elem_of_here.
  - exists kt, tstore', new. split; [exact Htoggle|]. split; [exact Htreq|].
    split; [exact Htapply|]. split; [exact Hnew|]. split; [exact Hbought|].
    rewrite Hframe by discriminate. vm_compute. reflexivity.
  - exists kb. split; [exact Hbtoggle | exact Hbreq].
Defined.

(** ** The category shared by the two forms *)

(** The select of either form writes the one [category] of the state. *)
Lemma ChangeCategory_both_tabs lc (w : App.World) (c : CategoryType) :
  App.currentTab (App.app w) = food \/ App.currentTab (App.app w) = shopping ->
  App.step lc w (App.ChangeCategory c)
  = Some (App.put w (App.setCategory c (App.app w))).
Proof.
  intros H. simpl. unfold App.on_tab.
  destruct H as [H | H]; rewrite H; reflexivity.
Qed.

(** C10: a shopping item is created with the category the state holds, so
    the category chosen in the food form, or staged by the edit button of a
    food record, is the category of the next shopping item. *)
Theorem shopping_create_takes_shared_category
    (now : Z) (s : App.State) (c : CategoryType) (rec : FoodRecord.t) :
  App.shopName s <> EmptyString ->
  (exists k,
     App.awaiting (App.handleShoppingSubmit now s) = Some k /\
     App.request k = Firestore.addDoc "shopping_list"
       [("category", Firestore.VString (CategoryType_value (App.category s)));
        ("name", Firestore.VString (App.shopName s));
        ("note", Firestore.VString (App.shopNote s));
        ("isBought", Firestore.VBoolean false);
        ("timestamp", Firestore.VNumber (JS.Num_of_Z now))]) /\
  (exists k,
     App.awaiting (App.handleShoppingSubmit now (App.setCategory c s)) = Some k /\
     App.request k = Firestore.addDoc "shopping_list"
       [("category", Firestore.VString (CategoryType_value c));
        ("name", Firestore.VString (App.shopName s));
        ("note", Firestore.VString (App.shopNote s));
        ("isBought", Firestore.VBoolean false);
        ("timestamp", Firestore.VNumber (JS.Num_of_Z now))]) /\
  (exists k,
     App.awaiting (App.handleShoppingSubmit now (App.next (App.handleEdit rec s)))
       = Some k /\
     App.request k = Firestore.addDoc "shopping_list"
       [("category", Firestore.VString (CategoryType_value (FoodRecord.category rec)));
        ("name", Firestore.VString (App.shopName s));
        ("note", Firestore.VString (App.shopNote s));
        ("isBought", Firestore.VBoolean false);
        ("timestamp", Firestore.VNumber (JS.Num_of_Z now))]).
Proof.
  intros Hn%falsy_filled.
  repeat split; unfold App.handleShoppingSubmit; simpl; rewrite Hn; simpl;
    eexists; (split; [reflexivity|]); reflexivity.
Qed.

Lemma shopping_create_takes_shared_category_witness :
  exists k,
    App.awaiting (App.handleShoppingSubmit 1746230400000
                    (App.next (App.handleEdit Sample.orijen Sample.named))) = Some k /\
    App.request k = Firestore.addDoc "shopping_list"
      [("category", Firestore.VString "dry");
       ("name", Firestore.VString "巔峰牛肉罐");
       ("note", Firestore.VString EmptyString);
       ("isBought", Firestore.VBoolean false);
       ("timestamp", Firestore.VNumber (JS.Dec 1746230400000 0))].
Proof.
  destruct (shopping_create_takes_shared_category 1746230400000 Sample.named
              raw Sample.orijen) as (_ & _ & Hedit).
  - discriminate.
  - exact Hedit.
Defined.

(** The same through the screen: the edit button of a dry food record, then
    the shopping tab, a name and the submit button. *)
Example shopping_after_edit :
  option_map (fun w => App.calls (App.log w))
    (App.run Sample.compare_code_units (App.boot "2025-05-01")
       [App.FoodSnapshot [Sample.orijen]; App.ClickEdit 0;
        App.SelectTab shopping; App.ChangeShopName "巔峰牛肉罐";
        App.SubmitShopping 1746230400000])
  = Some [Firestore.addDoc "shopping_list"
            [("category", Firestore.VString "dry");
             ("name", Firestore.VString "巔峰牛肉罐");
             ("note", Firestore.VString EmptyString);
             ("isBought", Firestore.VBoolean false);
             ("timestamp", Firestore.VNumber (JS.Dec 1746230400000 0))]].
Proof. reflexivity. Qed.

(** ** Failures of the store *)

(** C4, as the spec words it: a toggle the store rejects is logged and the
    user is told nothing. *)
Lemma toggle_rejected_cx :
  option_map (fun w => (App.log w, App.alerts (App.log w)))
    (App.run Sample.compare_code_units (App.boot "2025-05-01")
       [App.ShoppingSnapshot [Sample.wish]; App.SelectTab shopping;
        App.ClickToggle 0; App.Settle 0 Firestore.Rejected])
  = Some ([App.remote (Firestore.updateDoc "shopping_list" "s1"
                         [("isBought", Firestore.VBoolean true)]);
           App.console_error],
          []).
Proof. reflexivity. Qed.

(** A delete the store rejects is not caught at all: nothing is logged by
    the component and the user is told nothing. *)
Example delete_rejected_uncaught :
  option_map (fun w => (App.log w, App.alerts (App.log w)))
    (App.run Sample.compare_code_units (App.boot "2025-05-01")
       [App.FoodSnapshot [Sample.orijen]; App.ClickDeleteFood 0 true;
        App.Settle 0 Firestore.Rejected])
  = Some ([App.confirm "確定要刪除這筆紀錄嗎？" true;
           App.remote (Firestore.deleteDoc "records" "r1");
           App.unhandled_rejection],
          []).
Proof. reflexivity. Qed.

(** C4 (amended): a rejected call of one of the three forms is caught: the
    error is logged, the user gets a message, the flag goes down, nothing else
    of the state changes and no call is made again; a rejected toggle is caught
    and logged, without a message. *)
Theorem rejected_writes_reported
    (now : Z) (today : string) (item : ShoppingItem.t) (s s' : App.State)
    (k : App.Suspended) :
  (App.awaiting (App.handleFoodSubmit now today s) = Some k ->
     App.resume k Firestore.Rejected s'
     = (App.setIsSubmitting false s', [App.console_error; App.alert "上傳失敗"])) /\
  (App.awaiting (App.handleWeightSubmit s) = Some k ->
     App.resume k Firestore.Rejected s'
     = (App.setIsSubmitting false s', [App.console_error; App.alert "體重上傳失敗"])) /\
  (App.awaiting (App.handleShoppingSubmit now s) = Some k ->
     App.resume k Firestore.Rejected s'
     = (App.setIsSubmitting false s', [App.console_error; App.alert "新增失敗"])) /\
  (App.awaiting (App.toggleBought item s) = Some k ->
     App.resume k Firestore.Rejected s' = (s', [App.console_error])).
Proof.
  repeat split.
  - unfold App.handleFoodSubmit.
    destruct (JS.falsy (App.brand s) || JS.falsy (App.flavor s) || (App.rating s =? 0));
      simpl; [discriminate|]. now intros [= <-].
  - unfold App.handleWeightSubmit.
    destruct (JS.falsy (App.weightInput s) || JS.falsy (App.measureDate s));
      simpl; [discriminate|]. now intros [= <-].
  - unfold App.handleShoppingSubmit.
    destruct (JS.falsy (App.shopName s)); simpl; [discriminate|]. now intros [= <-].
  - simpl. now intros [= <-].
Qed.

Lemma rejected_writes_reported_witness :
  option_map (fun k => App.resume k Firestore.Rejected Sample.filled)
    (App.awaiting (App.handleFoodSubmit 1746057600000 "2025/5/1" Sample.filled))
  = Some (App.setIsSubmitting false Sample.filled,
          [App.console_error; App.alert "上傳失敗"]).
Proof.
  destruct (App.awaiting (App.handleFoodSubmit 1746057600000 "2025/5/1" Sample.filled))
    as [k|] eqn:Hk; [|discriminate Hk].
  simpl. f_equal.
  exact (proj1 (rejected_writes_reported 1746057600000 "2025/5/1" Sample.wish
                  Sample.filled Sample.filled k) Hk).
Defined.

(** ** The edit session *)

(** C1, as the spec words it: a snapshot without the record being edited
    leaves the session on that record, the staged fields in the form. *)
Lemma snapshot_without_edited_record_cx :
  option_map
    (fun w => (App.foodRecords (App.app w), App.editingId (App.app w),
               App.brand (App.app w), App.flavor (App.app w),
               App.rating (App.app w), App.category (App.app w)))
    (App.run Sample.compare_code_units (App.boot "2025-05-01")
       [App.FoodSnapshot [Sample.orijen]; App.ClickEdit 0; App.FoodSnapshot []])
  = Some ([], Some "r1", "Orijen 渴望", "雞肉", 5, dry).
Proof. reflexivity. Qed.

(** A snapshot of the food records replaces the list held and nothing else. *)
Lemma FoodSnapshot_only_records lc (w : App.World) (data : list FoodRecord.t) :
  App.step lc w (App.FoodSnapshot data)
  = Some (App.mkWorld (App.setFoodRecords data (App.app w)) (App.pending w) (App.log w)).
Proof. reflexivity. Qed.

(** The delete had its answer when the button was clicked: it compares with
    the record that was being edited then, not with the one edited when the
    store answers. *)
Example delete_then_edit_keeps_session :
  option_map (fun w => (App.editingId (App.app w), App.brand (App.app w)))
    (App.run Sample.compare_code_units (App.boot "2025-05-01")
       [App.FoodSnapshot [Sample.orijen]; App.ClickDeleteFood 0 true;
        App.ClickEdit 0; App.Settle 0 Firestore.Resolved])
  = Some (Some "r1", "Orijen 渴望").
Proof. reflexivity. Qed.

(** C1 (amended): a snapshot only replaces the records held; the session
    and the form stay as they are.  The session ends without a message when a
    delete of the record being edited, confirmed on this screen, has succeeded:
    then nothing is being edited and brand, flavor, rating and notes are empty,
    the category staying as staged. *)
Theorem edit_session_ends_on_local_delete
    (localeCompare : string -> string -> Z) (w : App.World)
    (data : list FoodRecord.t) (id colName : string) (s s' : App.State) :
  App.editingId s = Some id ->
  (exists w',
     App.step localeCompare w (App.FoodSnapshot data) = Some w' /\
     App.app w' = App.setFoodRecords data (App.app w) /\
     App.editingId (App.app w') = App.editingId (App.app w) /\
     App.log w' = App.log w) /\
  (exists k,
     App.handleDelete id colName true s
       = App.mkRan s [App.confirm "確定要刪除這筆紀錄嗎？" true] (Some k) /\
     App.request k = Firestore.deleteDoc colName id /\
     (App.resume k Firestore.Resolved s').2 = [] /\
     App.editingId (App.resume k Firestore.Resolved s').1 = None /\
     App.brand (App.resume k Firestore.Resolved s').1 = EmptyString /\
     App.flavor (App.resume k Firestore.Resolved s').1 = EmptyString /\
     App.rating (App.resume k Firestore.Resolved s').1 = 0 /\
     App.notes (App.resume k Firestore.Resolved s').1 = EmptyString /\
     App.category (App.resume k Firestore.Resolved s').1 = App.category s').
Proof.
  intros He. split.
  - eexists. split; [reflexivity|]. repeat split.
  - unfold App.handleDelete. rewrite He. eexists. split; [reflexivity|]. simpl.
    rewrite bool_decide_eq_true_2 by reflexivity. repeat split.
Qed.

Lemma edit_session_ends_on_local_delete_witness :
  option_map
    (fun w => (App.editingId (App.app w), App.brand (App.app w),
               App.category (App.app w), App.alerts (App.log w)))
    (App.run Sample.compare_code_units (App.boot "2025-05-01")
       [App.FoodSnapshot [Sample.orijen]; App.ClickEdit 0;
        App.ClickDeleteFood 0 true; App.Settle 0 Firestore.Resolved])
  = Some (None, EmptyString, dry, []) /\
  exists k,
    App.handleDelete "r1" "records" true Sample.editing_orijen
      = App.mkRan Sample.editing_orijen [App.confirm "確定要刪除這筆紀錄嗎？" true] (Some k) /\
    App.editingId (App.resume k Firestore.Resolved Sample.editing_orijen).1 = None.
Proof.
  split; [reflexivity|].
  destruct (edit_session_ends_on_local_delete Sample.compare_code_units
              (App.boot "2025-05-01") [] "r1" "records"
              Sample.editing_orijen Sample.editing_orijen eq_refl)
    as (_ & k & Hrun & _ & _ & Hidle & _).
  exists k. split; [exact Hrun | exact Hidle].
Defined.

(** ** One submission in flight *)









Lemma handleEdit_shape (rec : FoodRecord.t) (s : App.State) :
  App.other_shape s (App.handleEdit rec s).
Proof. split; [reflexivity | exact I]. Qed.




Lemma Forall_without {A} (P : A -> Prop) (l : list A) (i : nat) :
  Forall P l -> Forall P (take i l ++ drop (S i) l).
Proof.
  intros H. apply Forall_app. split; [now apply Forall_take | now apply Forall_drop].
Qed.





(** Opens the guards of a step that was taken. *)
Ltac open_step H :=
  unfold App.guard in H;
  repeat match type of H with
         | (if ?b then _ else _) = Some _ =>
             let Hb := fresh "Hguard" in destruct b eqn:Hb; [|discriminate H]
         | match ?x with Some _ => _ | None => _ end = Some _ =>
             let Hx := fresh "Hshown" in destruct x eqn:Hx; [|discriminate H]
         end;
  injection H as <-.







(** Deletes and toggles wait beside a submit: the flag counts submits only. *)
Example delete_beside_submit :
  option_map
    (fun w => (length (App.pending w), length (App.submits_in_flight w),
               App.isSubmitting (App.app w)))
    (App.run Sample.compare_code_units (App.boot "2025-05-01")
       [App.ShoppingSnapshot [Sample.wish]; App.SelectTab shopping;
        App.ChangeShopName "貓砂"; App.SubmitShopping 1746230400000;
        App.ClickToggle 0; App.ClickDeleteShopping 0 true])
  = Some (3%nat, 1%nat, true).
Proof. reflexivity. Qed.

(* ===================================================================== *)
(** * Further properties *)
(* ===================================================================== *)

(** ** More on the age label *)

(** X1: the label reads the distance to the birthday, not its direction: a date
    as long before the birthday as another is after it has the same label. *)
Theorem calculateAgeLabel_mirror
    (before after : string) (birth t_before t_after : Z) :
  JS.Date_getTime Age.DUDU_BIRTHDAY = Some birth ->
  JS.Date_getTime before = Some t_before ->
  JS.Date_getTime after = Some t_after ->
  birth - t_before = t_after - birth ->
  Age.calculateAgeLabel before = Age.calculateAgeLabel after.
Proof.
  intros Hb H1 H2 Hd. unfold Age.calculateAgeLabel, Age.diffDays.
  rewrite Hb, H1, H2. cbv zeta.
  replace (t_before - birth) with (- (t_after - birth)) by lia.
  now rewrite Z.abs_opp.
Qed.

Lemma calculateAgeLabel_mirror_witness :
  Age.calculateAgeLabel "2025-02-20" = Age.calculateAgeLabel "2025-05-11".
Proof.
  apply (calculateAgeLabel_mirror "2025-02-20" "2025-05-11"
           1743465600000 1740009600000 1746921600000); reflexivity.
Defined.

(** X2: from the first month on, the days of a month that are fewer than five
    past a whole month all read as that whole month. *)
Theorem calculateAgeLabel_rounds_to_month (d1 d2 : string) (n1 n2 : Z) :
  Age.diffDays d1 = Some n1 ->
  Age.diffDays d2 = Some n2 ->
  30 <= n1 -> n2 = 30 * (n1 / 30) -> n1 mod 30 < 5 ->
  Age.calculateAgeLabel d1 = Age.calculateAgeLabel d2.
Proof.
  intros H1 H2 Hmonth -> Hrem. unfold Age.calculateAgeLabel. rewrite H1, H2.
  assert (Hq : 1 <= n1 / 30) by (apply Z.div_le_lower_bound; lia).
  assert (H30 : (30 * (n1 / 30) <? 30) = false) by (apply Z.ltb_ge; lia).
  assert (Hn1 : (n1 <? 30) = false) by (apply Z.ltb_ge; lia).
  rewrite H30, Hn1. cbv zeta.
  rewrite Z.rem_mod_nonneg by lia.
  rewrite (Z.rem_mod_nonneg (30 * (n1 / 30))) by lia.
  replace (30 * (n1 / 30)) with (n1 / 30 * 30) by ring.
  rewrite Z.mod_mul, Z.div_mul by discriminate.
  apply Z.ltb_lt in Hrem. now rewrite Hrem.
Qed.

Lemma calculateAgeLabel_rounds_to_month_witness :
  Age.calculateAgeLabel "2025-06-04" = Age.calculateAgeLabel "2025-05-31".
Proof.
  apply (calculateAgeLabel_rounds_to_month "2025-06-04" "2025-05-31" 64 60);
    [reflexivity | reflexivity | lia | reflexivity | reflexivity].
Defined.

(** ** The chart *)

(** X3: the chart has one point for each weight record, in the order held, each
    with its record and the age on the date of that record. *)
Theorem chartData_points (weightRecords : list WeightRecord.t) :
  length (View.chartData weightRecords) = length weightRecords /\
  map View.point (View.chartData weightRecords) = weightRecords /\
  forall i p,
    View.chartData weightRecords !! i = Some p ->
    weightRecords !! i = Some (View.point p) /\
    View.ageLabel p = Age.calculateAgeLabel (WeightRecord.date (View.point p)).
Proof.
  unfold View.chartData. split; [apply length_map|]. split.
  - induction weightRecords as [|r l IH]; simpl; [reflexivity|]. now rewrite IH.
  - induction weightRecords as [|r l IH]; intros [|i] p Hp; try discriminate.
    + injection Hp as <-. split; reflexivity.
    + apply (IH i p Hp).
Qed.

(** ** Categories and brands *)

(** X4: every category has its option and its label, and no two categories
    share a label. *)
Theorem getCategoryLabel_total_injective :
  (forall c, exists label,
      Catalog.getCategoryLabel c = Some label /\
      (c, label) ∈ Catalog.categoryOptions) /\
  (forall c1 c2,
      Catalog.getCategoryLabel c1 = Catalog.getCategoryLabel c2 -> c1 = c2) /\
  NoDup Catalog.categoryOptions.*1.
Proof.
  split; [|split].
  - intros []; eexists; (split; [reflexivity|]);
      repeat (first [apply list_elem_of_here | apply list_elem_of_further]).
  - intros [] []; simpl; intros H; first [reflexivity | discriminate H].
  - apply (bool_decide_unpack _). reflexivity.
Qed.

Lemma Set_add_elem (acc : list string) (x y : string) :
  y ∈ Catalog.Set_add acc x <-> y ∈ acc \/ y = x.
Proof.
  unfold Catalog.Set_add. case_bool_decide as Hin.
  - split; [auto|]. intros [H | ->]; assumption.
  - rewrite elem_of_app, list_elem_of_singleton. reflexivity.
Qed.

Lemma Set_add_NoDup (acc : list string) (x : string) :
  NoDup acc -> NoDup (Catalog.Set_add acc x).
Proof.
  intros Hnd. unfold Catalog.Set_add. case_bool_decide as Hin; [exact Hnd|].
  apply NoDup_app. split; [exact Hnd|]. split.
  - intros y Hy Hy'. apply list_elem_of_singleton in Hy'. now subst.
  - apply NoDup_singleton.
Qed.

(** Adding a list of values to a set: nothing twice, nothing lost, nothing
    invented, and what was there stays in front. *)
Lemma Set_fold (l acc : list string) :
  NoDup acc ->
  NoDup (fold_left Catalog.Set_add l acc) /\
  (forall x, x ∈ fold_left Catalog.Set_add l acc <-> x ∈ acc \/ x ∈ l) /\
  acc `prefix_of` fold_left Catalog.Set_add l acc.
Proof.
  revert acc. induction l as [|y l IH]; intros acc Hnd; simpl.
  - split; [exact Hnd|]. split; [|reflexivity].
    intros x. rewrite elem_of_nil. tauto.
  - destruct (IH (Catalog.Set_add acc y) (Set_add_NoDup acc y Hnd))
      as (Hnd' & Hin & Hpre).
    split; [exact Hnd'|]. split.
    + intros x. rewrite Hin, Set_add_elem, elem_of_cons. tauto.
    + etransitivity; [|exact Hpre].
      unfold Catalog.Set_add. case_bool_decide; [reflexivity|].
      now apply prefix_app_r.
Qed.

(** A list without repetition goes through a set unchanged. *)
Lemma Set_fold_fresh (l acc : list string) :
  NoDup (acc ++ l) -> fold_left Catalog.Set_add l acc = (acc ++ l)%list.
Proof.
  revert acc. induction l as [|y l IH]; intros acc Hnd; simpl.
  - now rewrite app_nil_r.
  - assert (Hy : y ∉ acc).
    { apply NoDup_app in Hnd as (_ & Hdis & _). intros Hin.
      apply (Hdis y Hin). apply list_elem_of_here. }
    unfold Catalog.Set_add at 2. rewrite bool_decide_eq_false_2 by exact Hy.
    rewrite IH; rewrite <- app_assoc; [reflexivity | exact Hnd].
Qed.

Lemma defaultBrandData_NoDup (c : CategoryType) : NoDup (Catalog.defaultBrandData c).
Proof. destruct c; apply (bool_decide_unpack _); reflexivity. Qed.

(** X5: the brands offered: no brand twice; exactly the default brands of the
    category and the brands of the records of that category; the default brands
    first, in their order; and the default brands alone when no record of the
    category is held. *)
Theorem availableBrands_spec (category : CategoryType) (foodRecords : list FoodRecord.t) :
  NoDup (Catalog.availableBrands category foodRecords) /\
  (forall b,
     b ∈ Catalog.availableBrands category foodRecords <->
     b ∈ Catalog.defaultBrandData category \/
     exists r, r ∈ foodRecords /\ FoodRecord.category r = category /\
               FoodRecord.brand r = b) /\
  Catalog.defaultBrandData category
    `prefix_of` Catalog.availableBrands category foodRecords /\
  ((forall r, r ∈ foodRecords -> FoodRecord.category r <> category) ->
   Catalog.availableBrands category foodRecords = Catalog.defaultBrandData category).
Proof.
  unfold Catalog.availableBrands, Catalog.Set_from.
  rewrite fold_left_app.
  rewrite (Set_fold_fresh (Catalog.defaultBrandData category) [])
    by apply defaultBrandData_NoDup.
  simpl.
  destruct (Set_fold
              (map FoodRecord.brand
                 (List.filter (fun r => bool_decide (FoodRecord.category r = category))
                    foodRecords))
              (Catalog.defaultBrandData category) (defaultBrandData_NoDup category))
    as (Hnd & Hin & Hpre).
  split; [exact Hnd|]. split; [|split; [exact Hpre|]].
  - intros b. rewrite Hin. apply or_iff_compat_l.
    rewrite list_elem_of_In, in_map_iff. split.
    + intros (r & Hb & Hr). apply filter_In in Hr as [Hr Hc].
      apply bool_decide_eq_true in Hc. exists r.
      rewrite list_elem_of_In. auto.
    + intros (r & Hr & Hc & Hb). exists r. split; [exact Hb|].
      apply filter_In. rewrite <- list_elem_of_In.
      split; [exact Hr | now apply bool_decide_eq_true].
  - intros Hnone. clear Hnd Hin Hpre.
    replace (List.filter (fun r => bool_decide (FoodRecord.category r = category))
               foodRecords) with (@nil FoodRecord.t); [reflexivity|].
    symmetry. induction foodRecords as [|r l IH]; [reflexivity|]. simpl.
    rewrite bool_decide_eq_false_2 by (apply Hnone, list_elem_of_here).
    apply IH. intros r' Hr'. apply Hnone. now apply list_elem_of_further.
Qed.

Example availableBrands_dry :
  Catalog.availableBrands dry
    [Sample.ziwi; Sample.orijen; Sample.halo;
     FoodRecord.mk "r4" dry "Farmina" "羊" 3 EmptyString "2025/5/3" 1746230400000]
  = ["Orijen 渴望"; "Acana 愛肯拿"; "Nutrience 紐崔斯"; "Halo"; "Farmina"].
Proof. vm_compute. reflexivity. Qed.

(** ** The stars *)

(** X6: for a whole rating the form and the cards light the same stars: as
    many as the rating, none below zero and five from five on, and the lit ones
    come first. *)
Theorem stars_lit (rating : Z) :
  Catalog.formStars rating = Catalog.cardStars rating /\
  Catalog.formStars rating
  = (replicate (Z.to_nat (Z.min 5 (Z.max 0 rating))) true ++
     replicate (5 - Z.to_nat (Z.min 5 (Z.max 0 rating))) false)%list.
Proof.
  unfold Catalog.formStars, Catalog.cardStars. simpl.
  assert (Hcase : rating <= 0 \/ rating = 1 \/ rating = 2 \/ rating = 3 \/
                  rating = 4 \/ 5 <= rating) by lia.
  destruct Hcase as [H | [-> | [-> | [-> | [-> | H]]]]]; try (split; reflexivity).
  - replace (Z.min 5 (Z.max 0 rating)) with 0 by lia.
    repeat match goal with
           | |- context [?a <=? rating] => rewrite (proj2 (Z.leb_gt a rating)) by lia
           | |- context [?a <? rating] => rewrite (proj2 (Z.ltb_ge a rating)) by lia
           end.
    split; reflexivity.
  - replace (Z.min 5 (Z.max 0 rating)) with 5 by lia.
    repeat match goal with
           | |- context [?a <=? rating] => rewrite (proj2 (Z.leb_le a rating)) by lia
           | |- context [?a <? rating] => rewrite (proj2 (Z.ltb_lt a rating)) by lia
           end.
    split; reflexivity.
Qed.

(** ** More on the food list *)

Lemma filter_StronglySorted {A} (R : A -> A -> Prop) (p : A -> bool) (l : list A) :
  StronglySorted R l -> StronglySorted R (List.filter p l).
Proof.
  induction 1 as [|x l Hs IH Hx]; simpl; [constructor|].
  destruct (p x); [|exact IH]. constructor; [exact IH|].
  apply List.Forall_forall. intros y Hy. apply filter_In in Hy as [Hy _].
  exact (proj1 (List.Forall_forall _ _) Hx y Hy).
Qed.

(** Sorting a list that is in order gives it back. *)
Lemma Array_sort_ordered {A} (cmp : A -> A -> Z) (l : list A) :
  StronglySorted (fun a b => cmp a b <= 0) l -> View.Array_sort cmp l = l.
Proof.
  induction 1 as [|x l Hs IH Hx]; simpl; [reflexivity|]. rewrite IH.
  destruct l as [|y l']; [reflexivity|]. simpl.
  apply Forall_inv in Hx. now rewrite (proj2 (Z.ltb_ge 0 (cmp x y))).
Qed.


(** X8: by date the cards run from the newest to the oldest, by rating from the
    best to the worst. *)
Theorem displayedRecords_ordered lc (snapshot : list FoodRecord.t) (f : FilterType) :
  StronglySorted (fun a b => FoodRecord.timestamp b <= FoodRecord.timestamp a)
    (View.displayedRecords lc snapshot f by_date) /\
  StronglySorted (fun a b => FoodRecord.rating b <= FoodRecord.rating a)
    (View.displayedRecords lc snapshot f by_rating).
Proof.
  split; [apply displayedRecords_by_date_sorted | apply displayedRecords_by_rating_sorted].
Qed.

(** X9: by brand the cards run in the order of the collation, when the collation
    orders strings consistently. *)
Theorem displayedRecords_by_brand_sorted (localeCompare : string -> string -> Z)
    (snapshot : list FoodRecord.t) (f : FilterType) :
  (forall a b, 0 < localeCompare a b -> localeCompare b a <= 0) ->
  (forall a b c, localeCompare a b <= 0 -> localeCompare b c <= 0 ->
                 localeCompare a c <= 0) ->
  StronglySorted
    (fun a b => localeCompare (FoodRecord.brand a) (FoodRecord.brand b) <= 0)
    (View.displayedRecords localeCompare snapshot f by_brand).
Proof.
  intros Htotal Htrans. unfold View.displayedRecords.
  apply (Array_sort_sorted (View.compare localeCompare by_brand)); simpl.
  - intros x y. apply Htotal.
  - intros x y z. apply Htrans.
Qed.

Lemma displayedRecords_by_brand_sorted_witness :
  StronglySorted
    (fun a b => Fixture.compare_lengths (FoodRecord.brand a) (FoodRecord.brand b) <= 0)
    (View.displayedRecords Fixture.compare_lengths
       [Sample.ziwi; Sample.orijen; Sample.halo] all by_brand).
Proof.
  apply (displayedRecords_by_brand_sorted Fixture.compare_lengths);
    unfold Fixture.compare_lengths; intros; lia.
Defined.

(** X10: the subscription delivers the records newest first; such a snapshot is
    shown by date in the order it came, whatever the filter takes out. *)
Theorem displayedRecords_keeps_delivered_order lc (snapshot : list FoodRecord.t)
    (f : FilterType) :
  StronglySorted (fun a b => FoodRecord.timestamp b <= FoodRecord.timestamp a) snapshot ->
  View.displayedRecords lc snapshot f by_date = List.filter (View.keeps f) snapshot.
Proof.
  intros Hs. unfold View.displayedRecords. apply Array_sort_ordered.
  apply (filter_StronglySorted _ (View.keeps f)) in Hs.
  eapply StronglySorted_weaken; [|exact Hs]. simpl. intros a b. lia.
Qed.

Lemma displayedRecords_keeps_delivered_order_witness :
  View.displayedRecords Sample.compare_code_units
    [Sample.ziwi; Sample.orijen; Sample.halo] (only dry) by_date
  = [Sample.orijen; Sample.halo].
Proof.
  apply (displayedRecords_keeps_delivered_order Sample.compare_code_units
           [Sample.ziwi; Sample.orijen; Sample.halo] (only dry)).
  repeat constructor; simpl; lia.
Defined.

(** ** More on the forms *)

(** X11: a shopping form without a name stops at its validation: one message, no
    call, nothing waiting, the state as it was. *)
Theorem handleShoppingSubmit_empty_no_call (now : Z) (s : App.State) (w : App.World) :
  App.shopName s = EmptyString ->
  App.handleShoppingSubmit now s
    = App.mkRan s [App.alert "請輸入想買的東西名稱"] None /\
  App.calls (App.log (App.ran w (App.handleShoppingSubmit now s)))
    = App.calls (App.log w) /\
  App.pending (App.ran w (App.handleShoppingSubmit now s)) = App.pending w.
Proof.
  intros H.
  assert (Hrun : App.handleShoppingSubmit now s
            = App.mkRan s [App.alert "請輸入想買的東西名稱"] None).
  { unfold App.handleShoppingSubmit. now rewrite H. }
  rewrite Hrun. split; [reflexivity|]. unfold App.ran, App.calls. simpl.
  split; [|reflexivity]. rewrite omap_app. simpl. now rewrite app_nil_r.
Qed.

Lemma handleShoppingSubmit_empty_no_call_witness :
  App.handleShoppingSubmit 1746230400000 (App.initial "2025-05-01")
  = App.mkRan (App.initial "2025-05-01") [App.alert "請輸入想買的東西名稱"] None.
Proof.
  exact (proj1 (handleShoppingSubmit_empty_no_call 1746230400000
                  (App.initial "2025-05-01") (App.boot "2025-05-01") eq_refl)).
Defined.

(** X12: a weight that was stored empties the weight text and nothing else:
    the date of the form stays for the next entry; a shopping item that was
    stored empties its name and its note and nothing else: the shared category
    stays.  Each holds whatever the other forms hold, and neither shows a
    message. *)
Theorem create_resolved_empties_own_fields
    (now : Z) (sw ss s' : App.State) :
  (App.weightInput sw <> EmptyString -> App.measureDate sw <> EmptyString ->
   exists k,
     App.handleWeightSubmit sw = App.mkRan (App.setIsSubmitting true sw) [] (Some k) /\
     App.resume k Firestore.Resolved s'
       = (App.setIsSubmitting false (App.setWeightInput EmptyString s'), []) /\
     App.measureDate (App.resume k Firestore.Resolved s').1 = App.measureDate s') /\
  (App.shopName ss <> EmptyString ->
   exists k,
     App.handleShoppingSubmit now ss
       = App.mkRan (App.setIsSubmitting true ss) [] (Some k) /\
     App.resume k Firestore.Resolved s'
       = (App.setIsSubmitting false
            (App.setShopNote EmptyString (App.setShopName EmptyString s')), []) /\
     App.category (App.resume k Firestore.Resolved s').1 = App.category s').
Proof.
  split.
  - intros Hw%falsy_filled Hd%falsy_filled. unfold App.handleWeightSubmit.
    rewrite Hw, Hd. simpl. eexists. split; [reflexivity|]. simpl.
    split; reflexivity.
  - intros Hn%falsy_filled. unfold App.handleShoppingSubmit. rewrite Hn.
    eexists. split; [reflexivity|]. simpl. split; reflexivity.
Qed.

Lemma create_resolved_empties_own_fields_witness :
  (exists k,
     App.handleWeightSubmit
       (App.setWeightInput "1.5" (App.setCurrentTab weight (App.initial "2025-05-01")))
     = App.mkRan
         (App.setIsSubmitting true
            (App.setWeightInput "1.5"
               (App.setCurrentTab weight (App.initial "2025-05-01"))))
         [] (Some k) /\
     App.resume k Firestore.Resolved
       (App.setIsSubmitting true
          (App.setWeightInput "1.5"
             (App.setCurrentTab weight (App.initial "2025-05-01"))))
     = (App.setCurrentTab weight (App.initial "2025-05-01"), [])) /\
  (exists k,
     App.handleShoppingSubmit 1746230400000 (App.setCategory litter Sample.named)
     = App.mkRan (App.setIsSubmitting true (App.setCategory litter Sample.named))
         [] (Some k) /\
     App.resume k Firestore.Resolved
       (App.setIsSubmitting true (App.setCategory litter Sample.named))
     = (App.setCategory litter (App.initial "2025-05-01"), [])).
Proof.
  destruct (create_resolved_empties_own_fields 1746230400000
              (App.setWeightInput "1.5"
                 (App.setCurrentTab weight (App.initial "2025-05-01")))
              (App.setCategory litter Sample.named)
              (App.setIsSubmitting true
                 (App.setWeightInput "1.5"
                    (App.setCurrentTab weight (App.initial "2025-05-01")))))
    as [Hweight _].
  destruct (create_resolved_empties_own_fields 1746230400000
              (App.setWeightInput "1.5"
                 (App.setCurrentTab weight (App.initial "2025-05-01")))
              (App.setCategory litter Sample.named)
              (App.setIsSubmitting true (App.setCategory litter Sample.named)))
    as [_ Hshop].
  destruct Hweight as (kw & Hwrun & Hwres & _); [discriminate | discriminate |].
  destruct Hshop as (ks & Hsrun & Hsres & _); [discriminate|].
  split.
  - exists kw. split; [exact Hwrun|]. rewrite Hwres. reflexivity.
  - exists ks. split; [exact Hsrun|]. rewrite Hsres. reflexivity.
Defined.

(** X13: saving an edit: a valid form submitted while a record is being edited
    sends one update of that record.  When it is stored the session ends with a
    message, brand, flavor, rating and notes are emptied and the category stays;
    when it is rejected the session and the form stay for another try. *)
Theorem handleFoodSubmit_update
    (now : Z) (today : string) (s s' : App.State) (i : string) :
  App.editingId s = Some i -> i <> EmptyString ->
  App.brand s <> EmptyString -> App.flavor s <> EmptyString -> App.rating s <> 0 ->
  exists k,
    App.handleFoodSubmit now today s
      = App.mkRan (App.setIsSubmitting true s) [] (Some k) /\
    App.request k = Firestore.updateDoc "records" i (App.formFields s) /\
    (App.resume k Firestore.Resolved s').1
      = App.setIsSubmitting false (App.clearForm (App.setEditingId None s')) /\
    App.category (App.resume k Firestore.Resolved s').1 = App.category s' /\
    (App.resume k Firestore.Resolved s').2 = [App.alert "修改成功！"] /\
    (App.resume k Firestore.Rejected s').1 = App.setIsSubmitting false s' /\
    App.editingId (App.resume k Firestore.Rejected s').1 = App.editingId s' /\
    (App.resume k Firestore.Rejected s').2
      = [App.console_error; App.alert "上傳失敗"].
Proof.
  intros He Hi%falsy_filled Hb%falsy_filled Hf%falsy_filled Hr%Z.eqb_neq.
  unfold App.handleFoodSubmit. rewrite Hb, Hf, Hr. simpl.
  assert (Hreq : App.foodRequest now today s
                 = Firestore.updateDoc "records" i (App.formFields s)).
  { unfold App.foodRequest. now rewrite He, Hi. }
  assert (Hed : App.editing (App.editingId s) = true).
  { rewrite He. simpl. now rewrite Hi. }
  eexists. split; [reflexivity|]. simpl. rewrite Hreq, Hed. simpl.
  repeat split.
Qed.

Lemma handleFoodSubmit_update_witness :
  exists k,
    App.handleFoodSubmit 1746144000000 "2025/5/2" Sample.editing_orijen
      = App.mkRan (App.setIsSubmitting true Sample.editing_orijen) [] (Some k) /\
    App.request k = Firestore.updateDoc "records" "r1"
                      (App.formFields Sample.editing_orijen).
Proof.
  destruct (handleFoodSubmit_update 1746144000000 "2025/5/2"
              Sample.editing_orijen Sample.editing_orijen "r1")
    as (k & Hrun & Hreq & _); [reflexivity | discriminate | discriminate |
                                discriminate | discriminate |].
  exists k. split; [exact Hrun | exact Hreq].
Defined.

(** X14: the edit button and then the submit button, nothing typed between: the
    update carries the five fields of the record as the snapshot had them. *)
Theorem edit_then_save_rewrites_record
    (now : Z) (today : string) (rec : FoodRecord.t) (s : App.State) :
  FoodRecord.id rec <> EmptyString ->
  FoodRecord.brand rec <> EmptyString ->
  FoodRecord.flavor rec <> EmptyString ->
  FoodRecord.rating rec <> 0 ->
  exists k,
    App.awaiting (App.handleFoodSubmit now today (App.next (App.handleEdit rec s)))
      = Some k /\
    App.request k = Firestore.updateDoc "records" (FoodRecord.id rec)
      [("category", Firestore.VString (CategoryType_value (FoodRecord.category rec)));
       ("brand", Firestore.VString (FoodRecord.brand rec));
       ("flavor", Firestore.VString (FoodRecord.flavor rec));
       ("rating", Firestore.VNumber (JS.Num_of_Z (FoodRecord.rating rec)));
       ("notes", Firestore.VString (FoodRecord.notes rec))].
Proof.
  intros Hi%falsy_filled Hb%falsy_filled Hf%falsy_filled Hr%Z.eqb_neq.
  unfold App.handleFoodSubmit. simpl. rewrite Hb, Hf, Hr. simpl.
  eexists. split; [reflexivity|]. simpl.
  unfold App.foodRequest. simpl. now rewrite Hi.
Qed.

Lemma edit_then_save_rewrites_record_witness :
  exists k,
    App.awaiting (App.handleFoodSubmit 1746144000000 "2025/5/2"
                    (App.next (App.handleEdit Sample.ziwi (App.initial "2025-05-02"))))
      = Some k /\
    App.request k = Firestore.updateDoc "records" "r2"
      [("category", Firestore.VString "canned");
       ("brand", Firestore.VString "ZiwiPeak 巔峰");
       ("flavor", Firestore.VString "牛肉");
       ("rating", Firestore.VNumber (JS.Dec 4 0));
       ("notes", Firestore.VString "愛吃")].
Proof.
  apply (edit_then_save_rewrites_record 1746144000000 "2025/5/2" Sample.ziwi
           (App.initial "2025-05-02")); discriminate.
Defined.

(** X15: cancelling an edit leaves nothing being edited and the four text and
    rating fields empty, but the category of the record stays selected; apart
    from that the state is the one a cancel without the edit would give. *)
Theorem cancel_after_edit (rec : FoodRecord.t) (s : App.State) :
  App.handleCancelEdit (App.next (App.handleEdit rec s))
  = App.setCategory (FoodRecord.category rec) (App.handleCancelEdit s).
Proof. reflexivity. Qed.

(** ** Deleting *)

Lemma rev_reverse {A} (l : list A) : rev l = reverse l.
Proof. unfold reverse. apply rev_alt. Qed.

Lemma calls_app (l1 l2 : list App.Effect) :
  App.calls (l1 ++ l2) = (App.calls l1 ++ App.calls l2)%list.
Proof. apply omap_app. Qed.

(** X16: a delete that the user does not confirm does nothing: the state, the
    handlers waiting and the calls made are as before, on each of the lists. *)
Theorem delete_declined_does_nothing lc (w w' : App.World) (i : nat) :
  App.step lc w (App.ClickDeleteFood i false) = Some w' \/
  App.step lc w (App.ClickDeleteShopping i false) = Some w' \/
  App.step lc w (App.ClickDeleteWeight i false) = Some w' ->
  App.app w' = App.app w /\
  App.pending w' = App.pending w /\
  App.calls (App.log w') = App.calls (App.log w) /\
  App.alerts (App.log w') = App.alerts (App.log w).
Proof.
  intros [H | [H | H]]; simpl in H; open_step H; simpl;
    unfold App.calls, App.alerts; rewrite !omap_app; simpl;
    rewrite !app_nil_r; auto.
Qed.

Lemma delete_declined_does_nothing_witness :
  exists w',
    App.step Sample.compare_code_units Fixture.weighing (App.ClickDeleteWeight 0 false)
      = Some w' /\
    App.pending w' = [] /\ App.calls (App.log w') = [].
Proof.
  destruct (App.step Sample.compare_code_units Fixture.weighing
              (App.ClickDeleteWeight 0 false)) as [w'|] eqn:Hstep;
    [|discriminate Hstep].
  destruct (delete_declined_does_nothing Sample.compare_code_units
              Fixture.weighing w' 0 (or_intror (or_intror Hstep)))
    as (_ & Hpending & Hcalls & _).
  exists w'. split; [reflexivity|]. split; [exact Hpending | exact Hcalls].
Defined.

(** X17: a confirmed delete sends one [deleteDoc], to the collection of the list
    and for the record of the row clicked, and leaves the state until the store
    answers.  The weight rows are the records newest first: row [i] is the
    record [i] places from the end of the snapshot. *)
Theorem delete_confirmed_targets_row lc (w w' : App.World) (i : nat) :
  (App.step lc w (App.ClickDeleteFood i true) = Some w' ->
   exists rec,
     App.displayed lc (App.app w) !! i = Some rec /\
     App.app w' = App.app w /\
     App.calls (App.log w')
       = (App.calls (App.log w) ++
          [Firestore.deleteDoc "records" (FoodRecord.id rec)])%list) /\
  (App.step lc w (App.ClickDeleteShopping i true) = Some w' ->
   exists item,
     App.shoppingList (App.app w) !! i = Some item /\
     App.app w' = App.app w /\
     App.calls (App.log w')
       = (App.calls (App.log w) ++
          [Firestore.deleteDoc "shopping_list" (ShoppingItem.id item)])%list) /\
  (App.step lc w (App.ClickDeleteWeight i true) = Some w' ->
   exists rec,
     (i < length (App.weightRecords (App.app w)))%nat /\
     App.weightRecords (App.app w)
       !! (length (App.weightRecords (App.app w)) - S i)%nat = Some rec /\
     App.app w' = App.app w /\
     App.calls (App.log w')
       = (App.calls (App.log w) ++
          [Firestore.deleteDoc "weight_records" (WeightRecord.id rec)])%list).
Proof.
  split; [|split]; intros H; simpl in H; open_step H; simpl;
    eexists; (split; [|]).
  - reflexivity.
  - split; [reflexivity|]. rewrite !calls_app. simpl. reflexivity.
  - reflexivity.
  - split; [reflexivity|]. rewrite !calls_app. simpl. reflexivity.
  - rewrite rev_reverse in Hshown.
    apply reverse_lookup_Some in Hshown as [_ Hlt]. exact Hlt.
  - rewrite rev_reverse in Hshown.
    apply reverse_lookup_Some in Hshown as [Hrec _].
    split; [exact Hrec|]. split; [reflexivity|].
    rewrite !calls_app. simpl. reflexivity.
Qed.

Lemma delete_confirmed_targets_row_witness :
  exists w',
    App.step Sample.compare_code_units Fixture.weighing (App.ClickDeleteWeight 0 true)
      = Some w' /\
    App.calls (App.log w') = [Firestore.deleteDoc "weight_records" "w2"].
Proof.
  destruct (App.step Sample.compare_code_units Fixture.weighing
              (App.ClickDeleteWeight 0 true)) as [w'|] eqn:Hstep;
    [|discriminate Hstep].
  destruct (proj2 (proj2 (delete_confirmed_targets_row Sample.compare_code_units
                            Fixture.weighing w' 0)) Hstep)
    as (rec & _ & Hrec & _ & Hcalls).
  exists w'. split; [reflexivity|]. rewrite Hcalls.
  vm_compute in Hrec. injection Hrec as <-. reflexivity.
Defined.

(** ** What reaches the store *)

Lemma boot_calls_inv (today : string) : Trace.calls_inv (App.boot today).
Proof. split; [constructor | reflexivity]. Qed.

(** A handler that has run adds its call, if it waits for one, and no other. *)
Lemma ran_calls (w : App.World) (r : App.Ran) :
  Trace.calls_inv w ->
  Trace.call_shape r ->
  Trace.calls_inv (App.ran w r) /\
  App.calls (App.log (App.ran w r))
  = (App.calls (App.log w) ++
     match App.awaiting r with Some k => [App.request k] | None => [] end)%list.
Proof.
  intros [Hq Hc] [Hout Hk]. unfold App.ran.
  destruct (App.awaiting r) as [k|]; simpl.
  - destruct Hk as [Hquiet Hchecked].
    rewrite !calls_app, Hout. simpl. split; [|reflexivity]. split.
    + simpl. apply Forall_app. split; [exact Hq | now constructor].
    + simpl. rewrite !calls_app, Hout. simpl.
      rewrite forallb_app, Hc. simpl. now rewrite Hchecked.
  - rewrite calls_app, Hout, app_nil_r. split; [|reflexivity].
    split; [exact Hq|]. simpl. now rewrite calls_app, Hout, app_nil_r.
Qed.

Lemma settle_calls (w w' : App.World) (i : nat) (outcome : Firestore.Outcome) :
  Trace.calls_inv w ->
  App.settle i outcome w = Some w' ->
  Trace.calls_inv w' /\ App.calls (App.log w') = App.calls (App.log w).
Proof.
  intros [Hq Hc] Hsettle. unfold App.settle in Hsettle.
  destruct (App.pending w !! i) as [k|] eqn:Hi; [|discriminate].
  pose proof (proj1 (Forall_lookup _ _) Hq i k Hi outcome (App.app w)) as Hquiet.
  destruct (App.resume k outcome (App.app w)) as [s' o]. injection Hsettle as <-.
  simpl in *. rewrite calls_app, Hquiet, app_nil_r.
  split; [|reflexivity]. split; [now apply Forall_without|].
  simpl. now rewrite calls_app, Hquiet, app_nil_r.
Qed.

Lemma handleFoodSubmit_calls (now : Z) (today : string) (s : App.State) :
  Trace.call_shape (App.handleFoodSubmit now today s).
Proof.
  unfold App.handleFoodSubmit.
  destruct (JS.falsy (App.brand s)) eqn:Hb; [split; [reflexivity | exact I]|].
  destruct (JS.falsy (App.flavor s)) eqn:Hf; [split; [reflexivity | exact I]|].
  destruct (App.rating s =? 0) eqn:Hr; [split; [reflexivity | exact I]|].
  split; [reflexivity|]. simpl. split.
  - intros [] s'; simpl; [|reflexivity].
    now destruct (App.editing (App.editingId s)).
  - unfold App.foodRequest.
    destruct (App.editingId s) as [i|]; [destruct (JS.falsy i)|];
      simpl; unfold Trace.food_checked, Trace.text_filled, Trace.rating_of; simpl;
      now rewrite Hb, Hf, Hr.
Qed.

Lemma handleWeightSubmit_calls (s : App.State) :
  Trace.call_shape (App.handleWeightSubmit s).
Proof.
  unfold App.handleWeightSubmit.
  destruct (JS.falsy (App.weightInput s)); [split; [reflexivity | exact I]|].
  destruct (JS.falsy (App.measureDate s)) eqn:Hd; [split; [reflexivity | exact I]|].
  split; [reflexivity|]. simpl. split.
  - intros [] s'; reflexivity.
  - unfold Trace.text_filled. simpl. now rewrite Hd.
Qed.

Lemma handleShoppingSubmit_calls (now : Z) (s : App.State) :
  Trace.call_shape (App.handleShoppingSubmit now s).
Proof.
  unfold App.handleShoppingSubmit.
  destruct (JS.falsy (App.shopName s)) eqn:Hn; [split; [reflexivity | exact I]|].
  split; [reflexivity|]. simpl. split.
  - intros [] s'; reflexivity.
  - unfold Trace.text_filled. simpl. now rewrite Hn.
Qed.

Lemma handleEdit_calls (rec : FoodRecord.t) (s : App.State) :
  Trace.call_shape (App.handleEdit rec s).
Proof. split; [reflexivity | exact I]. Qed.

Lemma handleDelete_calls (id colName : string) (answer : bool) (s : App.State) :
  Trace.checked (Firestore.deleteDoc colName id) = true ->
  Trace.call_shape (App.handleDelete id colName answer s).
Proof.
  intros Hcol. unfold App.handleDelete.
  destruct answer; (split; [reflexivity|]); simpl; [|exact I].
  split; [|exact Hcol]. intros [] s'; simpl; [|reflexivity].
  now destruct (bool_decide (App.editingId s = Some id)).
Qed.

Lemma toggleBought_calls (item : ShoppingItem.t) (s : App.State) :
  Trace.call_shape (App.toggleBought item s).
Proof.
  split; [reflexivity|]. simpl. split; [|reflexivity]. intros [] s'; reflexivity.
Qed.

(** One event: the calls made so far stay, at most one is added, and none
    by an event that is not a click on a button or box that writes. *)
Lemma step_calls lc (w w' : App.World) (e : App.Event) :
  Trace.calls_inv w ->
  App.step lc w e = Some w' ->
  Trace.calls_inv w' /\
  exists new,
    App.calls (App.log w') = (App.calls (App.log w) ++ new)%list /\
    (length new <= 1)%nat /\
    (Trace.writes e = false -> new = []).
Proof.
  intros Hinv Hstep.
  assert (Hput : forall s,
            Trace.calls_inv (App.put w s) /\
            exists new,
              App.calls (App.log (App.put w s)) = (App.calls (App.log w) ++ new)%list /\
              (length new <= 1)%nat /\ (Trace.writes e = false -> new = [])).
  { intros s. split; [exact Hinv|]. exists []. rewrite app_nil_r. simpl. auto. }
  assert (Hran : forall r,
            Trace.call_shape r ->
            (Trace.writes e = false -> App.awaiting r = None) ->
            Trace.calls_inv (App.ran w r) /\
            exists new,
              App.calls (App.log (App.ran w r)) = (App.calls (App.log w) ++ new)%list /\
              (length new <= 1)%nat /\ (Trace.writes e = false -> new = [])).
  { intros r Hshape Hnone. destruct (ran_calls w r Hinv Hshape) as [Hinv' Hcalls].
    split; [exact Hinv'|]. eexists. split; [exact Hcalls|].
    split; [destruct (App.awaiting r); simpl; lia|].
    intros Hw. now rewrite (Hnone Hw). }
  destruct e; simpl in Hstep;
    try (destruct (settle_calls w w' i outcome Hinv Hstep) as [Hinv' Hcalls];
         split; [exact Hinv'|]; exists []; rewrite app_nil_r; simpl; auto);
    open_step Hstep; try apply Hput.
  - apply Hran; [apply handleFoodSubmit_calls | discriminate].
  - apply Hran; [apply handleWeightSubmit_calls | discriminate].
  - apply Hran; [apply handleShoppingSubmit_calls | discriminate].
  - apply Hran; [apply handleEdit_calls | reflexivity].
  - apply Hran; [now apply handleDelete_calls | discriminate].
  - apply Hran; [now apply handleDelete_calls | discriminate].
  - apply Hran; [now apply handleDelete_calls | discriminate].
  - apply Hran; [apply toggleBought_calls | discriminate].
Qed.

Lemma run_calls lc (es : list App.Event) (w w' : App.World) :
  Trace.calls_inv w ->
  App.run lc w es = Some w' ->
  Trace.calls_inv w' /\
  (length (App.calls (App.log w'))
   <= length (App.calls (App.log w)) + length (List.filter Trace.writes es))%nat.
Proof.
  revert w. induction es as [|e es IH]; intros w Hinv Hrun; simpl in Hrun.
  - injection Hrun as <-. split; [exact Hinv | simpl; lia].
  - destruct (App.step lc w e) as [w1|] eqn:Hstep; [|discriminate].
    destruct (step_calls lc w w1 e Hinv Hstep) as (Hinv1 & new & Hcalls & Hlen & Hquiet).
    destruct (IH w1 Hinv1 Hrun) as [Hinv' Hcount]. split; [exact Hinv'|].
    rewrite Hcalls, length_app in Hcount. simpl.
    destruct (Trace.writes e); simpl; [lia|].
    rewrite (Hquiet eq_refl) in Hcount. simpl in Hcount. lia.
Qed.

(** X18: every call the component ever makes went through the check of its form:
    a food document has brand, flavor and a rating that is not 0, a weight has
    its date, a shopping item has its name and is not bought, an update names
    the fields of its form alone, and only the three collections are written. *)
Theorem every_call_checked lc (today : string) (es : list App.Event) (w : App.World) :
  App.run lc (App.boot today) es = Some w ->
  forallb Trace.checked (App.calls (App.log w)) = true.
Proof.
  intros Hrun.
  exact (proj2 (proj1 (run_calls lc es _ w (boot_calls_inv today) Hrun))).
Qed.

Lemma every_call_checked_witness :
  match App.run Sample.compare_code_units (App.boot "2025-05-01")
          [App.ShoppingSnapshot [Sample.wish]; App.SelectTab shopping;
           App.ClickToggle 0; App.ChangeShopName "貓砂";
           App.SubmitShopping 1746230400000; App.ClickDeleteShopping 0 true] with
  | Some w =>
      length (App.calls (App.log w)) = 3%nat /\
      forallb Trace.checked (App.calls (App.log w)) = true
  | None => False
  end.
Proof.
  destruct (App.run Sample.compare_code_units (App.boot "2025-05-01")
              [App.ShoppingSnapshot [Sample.wish]; App.SelectTab shopping;
               App.ClickToggle 0; App.ChangeShopName "貓砂";
               App.SubmitShopping 1746230400000; App.ClickDeleteShopping 0 true])
    as [w|] eqn:Hrun; [|discriminate Hrun].
  split.
  - vm_compute in Hrun. injection Hrun as <-. reflexivity.
  - exact (every_call_checked Sample.compare_code_units "2025-05-01" _ w Hrun).
Defined.

(** X19: the component never calls the store on its own: a call is made only by
    a click on a submit button, a confirmed delete or a shopping box, one call
    for one click; snapshots, typing and the answers of the store, failures
    included, make none.  So there are never more calls than such clicks. *)
Theorem calls_only_on_clicks lc (today : string) (es : list App.Event)
    (w w' : App.World) (e : App.Event) :
  App.run lc (App.boot today) es = Some w ->
  App.step lc w e = Some w' ->
  (length (App.calls (App.log w)) <= length (List.filter Trace.writes es))%nat /\
  exists new,
    App.calls (App.log w') = (App.calls (App.log w) ++ new)%list /\
    (length new <= 1)%nat /\
    (Trace.writes e = false -> new = []).
Proof.
  intros Hrun Hstep.
  destruct (run_calls lc es _ w (boot_calls_inv today) Hrun) as [Hinv Hcount].
  split; [exact Hcount|]. exact (proj2 (step_calls lc w w' e Hinv Hstep)).
Qed.

Lemma calls_only_on_clicks_witness :
  match App.run Sample.compare_code_units (App.boot "2025-05-01")
          [App.ChangeCategory dry; App.ChangeBrand "Orijen 渴望";
           App.ChangeFlavor "雞肉"; App.ClickStar 5;
           App.SubmitFood 1746057600000 "2025/5/1"],
        App.run Sample.compare_code_units (App.boot "2025-05-01")
          [App.ChangeCategory dry; App.ChangeBrand "Orijen 渴望";
           App.ChangeFlavor "雞肉"; App.ClickStar 5;
           App.SubmitFood 1746057600000 "2025/5/1";
           App.Settle 0 Firestore.Rejected] with
  | Some w, Some w' => App.calls (App.log w') = App.calls (App.log w)
  | _, _ => False
  end.
Proof.
  destruct (App.run Sample.compare_code_units (App.boot "2025-05-01")
              [App.ChangeCategory dry; App.ChangeBrand "Orijen 渴望";
               App.ChangeFlavor "雞肉"; App.ClickStar 5;
               App.SubmitFood 1746057600000 "2025/5/1"]) as [w|] eqn:Hrun;
    [|discriminate Hrun].
  destruct (App.step Sample.compare_code_units w (App.Settle 0 Firestore.Rejected))
    as [w'|] eqn:Hstep.
  - assert (Hrun' : App.run Sample.compare_code_units (App.boot "2025-05-01")
                      [App.ChangeCategory dry; App.ChangeBrand "Orijen 渴望";
                       App.ChangeFlavor "雞肉"; App.ClickStar 5;
                       App.SubmitFood 1746057600000 "2025/5/1";
                       App.Settle 0 Firestore.Rejected] = Some w').
    { vm_compute in Hrun. injection Hrun as <-. vm_compute in Hstep.
      injection Hstep as <-. reflexivity. }
    rewrite Hrun'.
    destruct (calls_only_on_clicks Sample.compare_code_units "2025-05-01" _ w w'
                (App.Settle 0 Firestore.Rejected) Hrun Hstep)
      as (_ & new & Hcalls & _ & Hnone).
    rewrite Hcalls, (Hnone eq_refl). apply app_nil_r.
  - vm_compute in Hrun. injection Hrun as <-. discriminate Hstep.
Defined.

(** ** Ratings within the five stars *)

Lemma boot_rated_inv (today : string) : Trace.rated_inv (App.boot today).
Proof.
  split; [split; [simpl; lia | constructor]|]. split; [constructor | reflexivity].
Qed.

Lemma displayed_held lc (s : App.State) (i : nat) (rec : FoodRecord.t) :
  App.displayed lc s !! i = Some rec -> rec ∈ App.foodRecords s.
Proof.
  intros Hi. apply list_elem_of_lookup_2 in Hi. unfold App.displayed in Hi.
  rewrite displayedRecords_perm in Hi.
  apply list_elem_of_In, filter_In in Hi as [Hi _]. now apply list_elem_of_In.
Qed.

Lemma ran_rated (w : App.World) (r : App.Ran) :
  Trace.rated_inv w ->
  Trace.call_shape r ->
  Trace.rated_shape (App.app w) r ->
  Trace.rated_inv (App.ran w r).
Proof.
  intros (Hs & Hk & Hc) [Hout _] [Hnext Hshape]. unfold App.ran.
  destruct (App.awaiting r) as [k|]; simpl.
  - destruct Hshape as [Hres Hrated]. split; [exact Hnext|]. split.
    + simpl. apply Forall_app. split; [exact Hk | now constructor].
    + simpl. rewrite !calls_app, Hout. simpl.
      rewrite forallb_app, Hc. simpl. now rewrite Hrated.
  - split; [exact Hnext|]. split; [exact Hk|].
    simpl. now rewrite calls_app, Hout, app_nil_r.
Qed.

Lemma settle_rated (w w' : App.World) (i : nat) (outcome : Firestore.Outcome) :
  Trace.rated_inv w -> Trace.calls_inv w ->
  App.settle i outcome w = Some w' ->
  Trace.rated_inv w'.
Proof.
  intros (Hs & Hk & Hc) [Hq _] Hsettle. unfold App.settle in Hsettle.
  destruct (App.pending w !! i) as [k|] eqn:Hi; [|discriminate].
  pose proof (proj1 (Forall_lookup _ _) Hq i k Hi outcome (App.app w)) as Hquiet.
  pose proof (proj1 (Forall_lookup _ _) Hk i k Hi outcome (App.app w) Hs) as Hkeep.
  destruct (App.resume k outcome (App.app w)) as [s' o]. injection Hsettle as <-.
  simpl in *. split; [exact Hkeep|]. split; [now apply Forall_without|].
  simpl. now rewrite calls_app, Hquiet, app_nil_r.
Qed.

Lemma clearForm_rated (s : App.State) :
  Trace.rated_state s -> Trace.rated_state (App.clearForm s).
Proof. intros [_ Hrecs]. split; [simpl; lia | exact Hrecs]. Qed.

Lemma handleFoodSubmit_rated (now : Z) (today : string) (s : App.State) :
  Trace.rated_state s ->
  Trace.rated_shape s (App.handleFoodSubmit now today s).
Proof.
  intros Hs. unfold App.handleFoodSubmit.
  destruct (JS.falsy (App.brand s)); [split; [exact Hs | exact I]|].
  destruct (JS.falsy (App.flavor s)); [split; [exact Hs | exact I]|].
  destruct (App.rating s =? 0) eqn:Hr; [split; [exact Hs | exact I]|].
  simpl. split; [exact Hs|]. split.
  - intros [] s' Hs'; simpl; [|exact Hs'].
    destruct (App.editing (App.editingId s)); simpl;
      (split; [simpl; lia | exact (proj2 Hs')]).
  - apply Z.eqb_neq in Hr. destruct Hs as [Hrange _].
    assert (Hstars : (1 <=? App.rating s) && (App.rating s <=? 5) = true).
    { apply andb_true_iff. split; apply Z.leb_le; lia. }
    unfold App.foodRequest.
    destruct (App.editingId s) as [i|]; [destruct (JS.falsy i)|];
      simpl; unfold Trace.rating_of; simpl; exact Hstars.
Qed.

Lemma handleWeightSubmit_rated (s : App.State) :
  Trace.rated_state s -> Trace.rated_shape s (App.handleWeightSubmit s).
Proof.
  intros Hs. unfold App.handleWeightSubmit.
  destruct (JS.falsy (App.weightInput s) || JS.falsy (App.measureDate s));
    (split; [exact Hs|]); simpl; [exact I|].
  split; [|reflexivity]. intros [] s' Hs'; exact Hs'.
Qed.

Lemma handleShoppingSubmit_rated (now : Z) (s : App.State) :
  Trace.rated_state s -> Trace.rated_shape s (App.handleShoppingSubmit now s).
Proof.
  intros Hs. unfold App.handleShoppingSubmit.
  destruct (JS.falsy (App.shopName s)); (split; [exact Hs|]); simpl; [exact I|].
  split; [|reflexivity]. intros [] s' Hs'; exact Hs'.
Qed.

Lemma handleEdit_rated (rec : FoodRecord.t) (s : App.State) :
  Trace.rated_state s -> rec ∈ App.foodRecords s ->
  Trace.rated_shape s (App.handleEdit rec s).
Proof.
  intros [_ Hrecs] Hrec. split; [|exact I]. split; [|exact Hrecs]. simpl.
  pose proof (proj1 (Forall_forall _ _) Hrecs rec Hrec) as Hstars.
  unfold Trace.stars in Hstars. lia.
Qed.

Lemma handleDelete_rated (id colName : string) (answer : bool) (s : App.State) :
  Trace.rated_state s -> Trace.rated_shape s (App.handleDelete id colName answer s).
Proof.
  intros Hs. unfold App.handleDelete.
  destruct answer; (split; [exact Hs|]); simpl; [|exact I].
  split; [|reflexivity]. intros [] s' Hs'; simpl; [|exact Hs'].
  destruct (bool_decide (App.editingId s = Some id)); [|exact Hs'].
  split; [simpl; lia | exact (proj2 Hs')].
Qed.

Lemma toggleBought_rated (item : ShoppingItem.t) (s : App.State) :
  Trace.rated_state s -> Trace.rated_shape s (App.toggleBought item s).
Proof.
  intros Hs. split; [exact Hs|]. simpl. split; [|reflexivity].
  intros [] s' Hs'; exact Hs'.
Qed.

Lemma step_rated lc (w w' : App.World) (e : App.Event) :
  Trace.rated_inv w -> Trace.calls_inv w -> Trace.rated_event e ->
  App.step lc w e = Some w' ->
  Trace.rated_inv w'.
Proof.
  intros Hinv Hcalls He Hstep.
  pose proof Hinv as (Hs & Hk & Hc).
  assert (Hput : forall s, Trace.rated_state s -> Trace.rated_inv (App.put w s)).
  { intros s Hs'. split; [exact Hs'|]. split; assumption. }
  destruct e; simpl in Hstep;
    try (exact (settle_rated w w' i outcome Hinv Hcalls Hstep));
    open_step Hstep;
    try (apply Hput; exact Hs);
    try (apply Hput; split; [exact (proj1 Hs) | exact (proj2 Hs)]).
  - apply Hput. split; [|exact (proj2 Hs)]. simpl.
    apply andb_true_iff in Hguard as [Hguard H5].
    apply andb_true_iff in Hguard as [_ H1].
    apply Z.leb_le in H1, H5. lia.
  - apply ran_rated; [exact Hinv | apply handleFoodSubmit_calls |
                      now apply handleFoodSubmit_rated].
  - apply ran_rated; [exact Hinv | apply handleWeightSubmit_calls |
                      now apply handleWeightSubmit_rated].
  - apply ran_rated; [exact Hinv | apply handleShoppingSubmit_calls |
                      now apply handleShoppingSubmit_rated].
  - apply ran_rated; [exact Hinv | apply handleEdit_calls |].
    apply handleEdit_rated; [exact Hs | now apply (displayed_held lc _ i)].
  - apply Hput. split; [simpl; lia | exact (proj2 Hs)].
  - apply ran_rated; [exact Hinv | now apply handleDelete_calls |
                      now apply handleDelete_rated].
  - apply ran_rated; [exact Hinv | now apply handleDelete_calls |
                      now apply handleDelete_rated].
  - apply ran_rated; [exact Hinv | now apply handleDelete_calls |
                      now apply handleDelete_rated].
  - apply ran_rated; [exact Hinv | apply toggleBought_calls |
                      now apply toggleBought_rated].
  - apply Hput. split; [exact (proj1 Hs) | exact He].
Qed.

Lemma run_rated lc (es : list App.Event) (w w' : App.World) :
  Trace.rated_inv w -> Trace.calls_inv w -> Forall Trace.rated_event es ->
  App.run lc w es = Some w' ->
  Trace.rated_inv w'.
Proof.
  revert w. induction es as [|e es IH]; intros w Hinv Hcalls Hes Hrun; simpl in Hrun.
  - now injection Hrun as <-.
  - destruct (App.step lc w e) as [w1|] eqn:Hstep; [|discriminate].
    apply Forall_cons in Hes as [He Hes].
    apply (IH w1); [|exact (proj1 (step_calls lc w w1 e Hcalls Hstep)) | exact Hes | exact Hrun].
    now apply (step_rated lc w w1 e).
Qed.

(** X20: as long as the snapshots carry ratings of one to five stars, the rating
    of the form is 0 (none chosen) to 5, and every food document the component
    sends, inserted or updated, has a rating of one to five stars. *)
Theorem ratings_within_five_stars lc (today : string) (es : list App.Event)
    (w : App.World) :
  Forall Trace.rated_event es ->
  App.run lc (App.boot today) es = Some w ->
  0 <= App.rating (App.app w) <= 5 /\
  forallb Trace.rated (App.calls (App.log w)) = true.
Proof.
  intros Hes Hrun.
  destruct (run_rated lc es _ w (boot_rated_inv today) (boot_calls_inv today) Hes Hrun)
    as ([Hrating _] & _ & Hcalls).
  split; assumption.
Qed.

Lemma ratings_within_five_stars_witness :
  match App.run Sample.compare_code_units (App.boot "2025-05-01")
          [App.FoodSnapshot [Sample.ziwi]; App.ClickEdit 0; App.ClickStar 2;
           App.SubmitFood 1746144000000 "2025/5/2"] with
  | Some w =>
      0 <= App.rating (App.app w) <= 5 /\
      forallb Trace.rated (App.calls (App.log w)) = true
  | None => False
  end.
Proof.
  destruct (App.run Sample.compare_code_units (App.boot "2025-05-01")
              [App.FoodSnapshot [Sample.ziwi]; App.ClickEdit 0; App.ClickStar 2;
               App.SubmitFood 1746144000000 "2025/5/2"])
    as [w|] eqn:Hrun; [|discriminate Hrun].
  apply (ratings_within_five_stars Sample.compare_code_units "2025-05-01"
           [App.FoodSnapshot [Sample.ziwi]; App.ClickEdit 0; App.ClickStar 2;
            App.SubmitFood 1746144000000 "2025/5/2"] w); [|exact Hrun].
  repeat constructor; unfold Trace.stars; simpl; lia.
Defined.

(** Without that the rating of a record goes out as it came: the edit button
    on a record rated 7 and the submit button send a 7. *)
Example rating_of_snapshot_goes_out :
  option_map (fun w => App.calls (App.log w))
    (App.run Sample.compare_code_units (App.boot "2025-05-01")
       [App.FoodSnapshot
          [FoodRecord.mk "r9" raw "Primal" "兔" 7 EmptyString "2025/5/3" 1746230400000];
        App.ClickEdit 0; App.SubmitFood 1746316800000 "2025/5/4"])
  = Some [Firestore.updateDoc "records" "r9"
            [("category", Firestore.VString "raw");
             ("brand", Firestore.VString "Primal");
             ("flavor", Firestore.VString "兔");
             ("rating", Firestore.VNumber (JS.Dec 7 0));
             ("notes", Firestore.VString EmptyString)]].
Proof. reflexivity. Qed.

(** ** The earlier versions *)

(** X21: in the first and the second version a delete the store rejects is
    caught: the error is logged, the user is told, the state stays. *)
Theorem earlier_delete_rejection_caught (id : string) (s s' : App.State) :
  (exists k,
     AppV1.handleDelete id true s
       = App.mkRan s [App.confirm "確定要刪除這筆紀錄嗎？（所有人都不會再看到囉）" true]
           (Some k) /\
     App.request k = Firestore.deleteDoc "records" id /\
     App.resume k Firestore.Rejected s'
       = (s', [App.console_error; App.alert "刪除失敗"]) /\
     App.resume k Firestore.Resolved s' = (s', [])) /\
  (exists k,
     AppV2.handleDelete id true s
       = App.mkRan s [App.confirm "確定要刪除這筆紀錄嗎？刪掉就救不回來囉！" true]
           (Some k) /\
     App.request k = Firestore.deleteDoc "records" id /\
     App.resume k Firestore.Rejected s'
       = (s', [App.console_error; App.alert "刪除失敗"])).
Proof.
  split; eexists; (split; [reflexivity|]); simpl; repeat split.
Qed.

(** X22: the first version only creates: a valid form sends one insert with the
    fields, a date and a timestamp; stored, it empties brand, flavor, rating
    and notes and keeps the category chosen; rejected, it logs, tells the user
    and keeps the form.  Either way the flag goes down. *)
Theorem first_version_create (now : Z) (today : string) (s s' : App.State) :
  App.brand s <> EmptyString -> App.flavor s <> EmptyString -> App.rating s <> 0 ->
  exists k,
    AppV1.handleSubmit now today s
      = App.mkRan (App.setIsSubmitting true s) [] (Some k) /\
    App.request k = Firestore.addDoc "records" (App.newFoodDocument now today s) /\
    App.resume k Firestore.Resolved s'
      = (App.setIsSubmitting false (App.clearForm s'), []) /\
    App.category (App.resume k Firestore.Resolved s').1 = App.category s' /\
    App.resume k Firestore.Rejected s'
      = (App.setIsSubmitting false s',
         [App.console_error; App.alert "上傳失敗，請檢查網路或是 Firebase 設定"]).
Proof.
  intros Hb%falsy_filled Hf%falsy_filled Hr%Z.eqb_neq.
  unfold AppV1.handleSubmit. rewrite Hb, Hf, Hr. simpl.
  eexists. split; [reflexivity|]. simpl. repeat split.
Qed.

Lemma first_version_create_witness :
  exists k,
    AppV1.handleSubmit 1746057600000 "2025/5/1" Sample.filled
      = App.mkRan (App.setIsSubmitting true Sample.filled) [] (Some k) /\
    App.category (App.resume k Firestore.Resolved Sample.filled).1 = dry.
Proof.
  destruct (first_version_create 1746057600000 "2025/5/1" Sample.filled Sample.filled)
    as (k & Hrun & _ & _ & Hcat & _); [discriminate | discriminate | discriminate |].
  exists k. split; [exact Hrun | exact Hcat].
Defined.

(** X23: from the second version to the latest the food form and the delete of a
    food record do the same as long as the store accepts: the same validation,
    the same call, the same end.  They differ when the store rejects: the
    message of the form is shorter, and the delete is no longer caught. *)
Theorem latest_matches_second_version
    (now : Z) (today : string) (id : string) (s s' : App.State) :
  App.next (AppV2.handleSubmit now today s)
    = App.next (App.handleFoodSubmit now today s) /\
  App.out (AppV2.handleSubmit now today s)
    = App.out (App.handleFoodSubmit now today s) /\
  match App.awaiting (AppV2.handleSubmit now today s),
        App.awaiting (App.handleFoodSubmit now today s) with
  | Some k2, Some k =>
      App.request k2 = App.request k /\
      App.resume k2 Firestore.Resolved s' = App.resume k Firestore.Resolved s' /\
      (App.resume k2 Firestore.Rejected s').1 = (App.resume k Firestore.Rejected s').1
  | None, None => True
  | _, _ => False
  end /\
  match App.awaiting (AppV2.handleDelete id true s),
        App.awaiting (App.handleDelete id "records" true s) with
  | Some k2, Some k =>
      App.request k2 = App.request k /\
      App.resume k2 Firestore.Resolved s' = App.resume k Firestore.Resolved s' /\
      App.alerts (App.resume k2 Firestore.Rejected s').2 = ["刪除失敗"] /\
      (App.resume k Firestore.Rejected s').2 = [App.unhandled_rejection]
  | _, _ => False
  end.
Proof.
  unfold AppV2.handleSubmit, App.handleFoodSubmit.
  destruct (JS.falsy (App.brand s) || JS.falsy (App.flavor s) || (App.rating s =? 0));
    simpl; repeat split.
Qed.
